(** * Validation contract of [backend/app/models/recipe.py]

    A shallow embedding of the pydantic models of the recipe service and of
    the construction pass that validates a payload against them, followed by
    the properties of that pass.

    Layout: the Python runtime pieces the validators call ([str.strip],
    [str.lower], [sorted], [str.join], float comparison), the construction
    machinery (declarative [Field] constraints, then the [field_validator]
    of the field, errors of all fields collected), one module per model
    class, and finally the theorems. *)

From Stdlib Require Import ZArith List Ascii String Lia Bool SpecFloat.
From stdpp Require Import base option list gmap strings sorting.

Local Open Scope Z_scope.

(* ===================================================================== *)
(** ** Python strings                                                     *)
(* ===================================================================== *)

(** A Python [str] is a sequence of Unicode code points. *)
Definition char := N.
Definition str := list char.

(** Source text literals are ASCII; [lit] reads one as a [str]. *)
Definition lit (x : string) : str := map N_of_ascii (list_ascii_of_string x).

(** [bool(s)] for a string: non-empty. *)
Definition truthy (x : str) : bool :=
  match x with [] => false | _ :: _ => true end.

(** [c.isspace()] as CPython decides it for [str.strip()] without
    arguments: the ASCII table [_Py_ascii_whitespace] below 128,
    [_PyUnicode_IsWhitespace] above. *)
Definition isspace (c : char) : bool :=
  ((9 <=? c) && (c <=? 13) || (28 <=? c) && (c <=? 32)
   || (c =? 133) || (c =? 160) || (c =? 5760)
   || (8192 <=? c) && (c <=? 8202)
   || (c =? 8232) || (c =? 8233) || (c =? 8239) || (c =? 8287)
   || (c =? 12288))%N.

(** [s.lstrip()]: skip whitespace from the left. *)
Fixpoint lstrip (x : str) : str :=
  match x with
  | [] => []
  | c :: x' => if isspace c then lstrip x' else x
  end.

(** [s.rstrip()]: the same scan from the right end. *)
Definition rstrip (x : str) : str := rev (lstrip (rev x)).

(** [s.strip()] returns the slice between the two scans. *)
Definition strip (x : str) : str := rstrip (lstrip x).

Definition is_ascii (c : char) : bool := (c <? 128)%N.

(** The surrogate code points, U+D800 to U+DFFF. A [str] may hold them,
    and a string that does has no UTF-8 encoding. *)
Definition is_surrogate (c : char) : bool := ((55296 <=? c) && (c <=? 57343))%N.

(** [s.encode("utf-8")] succeeds. *)
Definition encodable (x : str) : bool :=
  forallb (fun c => negb (is_surrogate c)) x.

(** ASCII lowering: [A-Z] to [a-z], every other code point unchanged. *)
Definition ascii_lower (c : char) : char :=
  if ((65 <=? c) && (c <=? 90))%N then (c + 32)%N else c.

(** The Unicode character database is part of the interpreter, not of the
    repository: lowering of a string that holds a non-ASCII code point is
    left as an interface. Every result below holds for each implementation
    of it. *)
Class UnicodeData := { lower_nonascii : str -> str }.

(** [s.lower()]: CPython lowers an all-ASCII string bytewise and consults
    the Unicode database otherwise. *)
Definition lower `{UnicodeData} (x : str) : str :=
  if forallb is_ascii x then map ascii_lower x else lower_nonascii x.

(** [sep.join(xs)]. *)
Fixpoint join (sep : str) (xs : list str) : str :=
  match xs with
  | [] => []
  | [x] => x
  | x :: xs' => x ++ sep ++ join sep xs'
  end.

(** [a < b] on strings: lexicographic on code points. *)
Fixpoint str_ltb (a b : str) : bool :=
  match a, b with
  | _, [] => false
  | [], _ :: _ => true
  | c :: a', d :: b' => (c <? d)%N || (c =? d)%N && str_ltb a' b'
  end.

Definition str_le (a b : str) : Prop := str_ltb b a = false.

#[global] Instance str_le_dec : RelDecision str_le.
Proof. intros a b. unfold str_le. apply _. Defined.

(** [sorted(xs)] for an iterable of strings. *)
Definition sorted (xs : list str) : list str := merge_sort str_le xs.

(* ===================================================================== *)
(** ** Python floats                                                      *)
(* ===================================================================== *)

(** A Python [float] is an IEEE 754 binary64 value; [valid_float] says a
    [spec_float] is one in canonical form. *)
Definition float := spec_float.
Definition valid_float (x : float) : bool := valid_binary 53 1024 x.

(** [a < b], [a <= b] and [a >= b] on floats; each is false on a NaN. *)
Definition float_lt (a b : float) : bool := SFltb a b.
Definition float_le (a b : float) : bool := SFleb a b.
Definition float_ge (a b : float) : bool := SFleb b a.

(** The literals [0.0] and [100.0]. *)
Definition f0 : float := S754_zero false.
Definition f100 : float := S754_finite false 7036874417766400 (-46).

(* ===================================================================== *)
(** ** The construction pass                                              *)
(* ===================================================================== *)

(** What a failed check reports: the kinds of error the models of this
    file can produce. [value_error] carries the message of a [ValueError]
    raised by a [field_validator]. *)
Inductive number := NInt (z : Z) | NFloat (x : float).

Inductive error_type :=
| missing
| string_unicode
| string_too_short (min_length : nat)
| string_too_long (max_length : nat)
| greater_than_equal (ge : number)
| less_than_equal (le : number)
| value_error (msg : str).

(** Where it is reported: the path of field names and list indices. *)
Inductive loc_item := Key (name : string) | Index (i : nat).

Record line_error := LineError { loc : list loc_item; err : error_type }.

(** Validation either yields the value to store or the errors found. At
    the level of a whole model [Err] is the raised [ValidationError]. *)
Inductive result (A : Type) :=
| Ok (a : A)
| Err (errors : list line_error).
Arguments Ok {A} a.
Arguments Err {A} errors.

Definition errors_of {A} (r : result A) : list line_error :=
  match r with Ok _ => [] | Err es => es end.

Definition is_ok {A} (r : result A) : bool :=
  match r with Ok _ => true | Err _ => false end.

#[global] Instance result_ret : MRet result := @Ok.
#[global] Instance result_bind : MBind result := fun A B f r =>
  match r with Ok a => f a | Err es => Err es end.
#[global] Instance result_fmap : FMap result := fun A B f r =>
  match r with Ok a => Ok (f a) | Err es => Err es end.

(** A single failed check, located at the value being validated. *)
Definition fail {A} (e : error_type) : result A := Err [LineError [] e].

(** [raise ValueError(msg)] inside a validator. *)
Definition raise_ValueError {A} (msg : str) : result A := fail (value_error msg).

(** Errors of a nested value are reported under the enclosing location. *)
Definition at_loc {A} (i : loc_item) (r : result A) : result A :=
  match r with
  | Ok a => Ok a
  | Err es => Err (map (fun e => LineError (i :: loc e) (err e)) es)
  end.

(** Two validations of one pass: both run, and the errors of both are
    kept, in order. *)
Definition both {A B} (a : result A) (b : result B) : result (A * B) :=
  match a, b with
  | Ok x, Ok y => Ok (x, y)
  | _, _ => Err (errors_of a ++ errors_of b)
  end.

(** A payload either supplies a field or leaves it out. *)
Inductive supplied (A : Type) :=
| Absent
| Given (v : A).
Arguments Absent {A}.
Arguments Given {A} v.

(** One field of a model: a supplied value goes through the field's
    validator; an absent one takes the declared default unvalidated, and is
    reported [missing] when the field is required ([Field(...)]). *)
Definition field {R A} (name : string) (default : option A)
    (validator : R -> result A) (raw : supplied R) : result A :=
  match raw with
  | Given v => at_loc (Key name) (validator v)
  | Absent =>
      match default with
      | Some d => Ok d
      | None => Err [LineError [Key name] missing]
      end
  end.

Definition required {A} : option A := None.

(** Declarative constraints of [Field]: the length bounds of a string, and
    the numeric bounds, upper before lower. A string with a length bound
    is read as UTF-8 before its code points are counted, so one that holds
    a surrogate is reported as [string_unicode]. A numeric bound holds
    when its comparison is true, so a NaN meets none. *)
Definition check_str (min_length max_length : nat) (v : str) : result str :=
  if negb (encodable v) then fail string_unicode
  else if (length v <? min_length)%nat then fail (string_too_short min_length)
  else if (max_length <? length v)%nat then fail (string_too_long max_length)
  else Ok v.

Definition check_int_ge (ge : Z) (v : Z) : result Z :=
  if v <? ge then fail (greater_than_equal (NInt ge)) else Ok v.

Definition check_int_le (le : Z) (v : Z) : result Z :=
  if le <? v then fail (less_than_equal (NInt le)) else Ok v.

Definition check_int_range (ge le : Z) (v : Z) : result Z :=
  v ← check_int_le le v; check_int_ge ge v.

Definition check_float_ge (ge : float) (v : float) : result float :=
  if float_ge v ge then Ok v else fail (greater_than_equal (NFloat ge)).

Definition check_float_le (le : float) (v : float) : result float :=
  if float_le v le then Ok v else fail (less_than_equal (NFloat le)).

Definition check_float_range (ge le : float) (v : float) : result float :=
  v ← check_float_le le v; check_float_ge ge v.

(** [Optional[T]]: [None] passes, a value is checked as a [T]. *)
Definition nullable {A} (check : A -> result A) (v : option A) : result (option A) :=
  match v with
  | None => Ok None
  | Some x => Some <$> check x
  end.

(** [List[T]]: every item is validated, errors located by index. *)
Fixpoint check_list_from {R A} (item : R -> result A) (i : nat) (xs : list R)
    : result (list A) :=
  match xs with
  | [] => Ok []
  | x :: xs' =>
      (fun p => fst p :: snd p)
        <$> both (at_loc (Index i) (item x)) (check_list_from item (S i) xs')
  end.

Definition check_list {R A} (item : R -> result A) (xs : list R) : result (list A) :=
  check_list_from item 0 xs.

(** A field whose type is a model takes an instance of the model as it is
    and validates a mapping as a payload of the model. *)
Inductive model_input (P T : Type) :=
| Instance_of (x : T)
| Mapping (p : P).
Arguments Instance_of {P T} x.
Arguments Mapping {P T} p.

Definition check_model {P T} (construct : P -> result T) (v : model_input P T)
    : result T :=
  match v with
  | Instance_of x => Ok x
  | Mapping p => construct p
  end.

(** Values held by [info.data], the fields validated so far. *)
Inductive pyvalue :=
| PyNone
| PyStr (x : str)
| PyInt (z : Z)
| PyFloat (x : float).

Definition py_option {A} (inj : A -> pyvalue) (v : option A) : pyvalue :=
  match v with None => PyNone | Some a => inj a end.

(** A field enters [info.data] only when its validation succeeded. *)
Definition store {A} (name : string) (inj : A -> pyvalue) (r : result A)
    (data : gmap string pyvalue) : gmap string pyvalue :=
  match r with
  | Ok v => <[name := inj v]> data
  | Err _ => data
  end.

(* ===================================================================== *)
(** ** The models                                                         *)
(* ===================================================================== *)

Module RecipeAnalysisRequest.

Record payload := { raw_recipe_name : supplied str }.

Record t := { recipe_name : str }.

(** [validate_recipe_name]: reject an empty or all-whitespace name, store
    the stripped one. *)
Definition validate_recipe_name (v : str) : result str :=
  if negb (truthy v) || negb (truthy (strip v))
  then raise_ValueError (lit "Recipe name cannot be empty")
  else Ok (strip v).

Definition construct (p : payload) : result t :=
  Build_t
    <$> field "recipe_name" required
          (fun v => v ← check_str 1 200 v; validate_recipe_name v)
          (raw_recipe_name p).

End RecipeAnalysisRequest.

Module FullAnalysisRequest.

Record payload := {
  raw_recipe_name : supplied str;
  raw_ingredients : supplied (option (list str));
  raw_allergens : supplied (option (list str));
  raw_avoid_ingredients : supplied (option (list str))
}.

Record t := {
  recipe_name : str;
  ingredients : option (list str);
  allergens : option (list str);
  avoid_ingredients : option (list str)
}.

Definition validate_recipe_name_full (v : str) : result str :=
  if negb (truthy v) || negb (truthy (strip v))
  then raise_ValueError (lit "Recipe name cannot be empty")
  else Ok (strip v).

(** [[ing.strip() for ing in v if ing.strip()]] and the emptiness check of
    the comprehension's result. *)
Definition validate_ingredients (v : option (list str)) : result (option (list str)) :=
  match v with
  | Some l =>
      let l' := map strip (List.filter (fun ing => truthy (strip ing)) l) in
      if (length l' =? 0)%nat
      then raise_ValueError (lit "Ingredients list cannot be empty if provided")
      else Ok (Some l')
  | None => Ok None
  end.

Definition valid_allergens : gset str :=
  {[ lit "milk"; lit "eggs"; lit "peanuts"; lit "tree_nuts";
     lit "soy"; lit "wheat"; lit "fish"; lit "shellfish" ]}.

(** The message of the f-string raised for an allergen outside the set. *)
Definition invalid_allergen_message (allergen : str) : str :=
  lit "Invalid allergen '" ++ allergen ++ lit "'. Valid: "
    ++ join (lit ", ") (sorted (elements valid_allergens)).

(** The [for] loop over the normalized list: the first entry outside the
    set raises. *)
Fixpoint check_allergens (l : list str) : result unit :=
  match l with
  | [] => Ok tt
  | allergen :: l' =>
      if bool_decide (allergen ∈ valid_allergens)
      then check_allergens l'
      else raise_ValueError (invalid_allergen_message allergen)
  end.

Section WithUnicode.
Context `{UnicodeData}.

Definition validate_allergens (v : option (list str)) : result (option (list str)) :=
  match v with
  | Some l =>
      let l' := map (fun a => lower (strip a))
                    (List.filter (fun a => truthy (strip a)) l) in
      _ ← check_allergens l'; Ok (Some l')
  | None => Ok None
  end.

(** Fields are validated in declaration order; [avoid_ingredients] has no
    validator of its own. *)
Definition construct (p : payload) : result t :=
  (fun '(n, (i, (a, av))) => Build_t n i a av)
    <$> both
          (field "recipe_name" required
             (fun v => v ← check_str 1 200 v; validate_recipe_name_full v)
             (raw_recipe_name p))
       (both
          (field "ingredients" (Some None) validate_ingredients (raw_ingredients p))
       (both
          (field "allergens" (Some None) validate_allergens (raw_allergens p))
          (field "avoid_ingredients" (Some None) Ok (raw_avoid_ingredients p)))).

End WithUnicode.

End FullAnalysisRequest.

Module RecipeBasic.

Record payload := {
  raw_id : supplied str;
  raw_name : supplied str;
  raw_cuisine : supplied (option str);
  raw_diet_type : supplied (option str);
  raw_ingredients : supplied (list str);
  raw_instructions : supplied (option str);
  raw_prep_time : supplied (option Z);
  raw_cook_time : supplied (option Z);
  raw_servings : supplied (option Z)
}.

Record t := {
  id : str;
  name : str;
  cuisine : option str;
  diet_type : option str;
  ingredients : list str;
  instructions : option str;
  prep_time : option Z;
  cook_time : option Z;
  servings : option Z
}.

(** No field carries a constraint or a validator. *)
Definition construct (p : payload) : result t :=
  (fun '(i, (n, (c, (d, (ing, (ins, (pt, (ct, s)))))))) =>
     Build_t i n c d ing ins pt ct s)
    <$> both (field "id" required Ok (raw_id p))
       (both (field "name" required Ok (raw_name p))
       (both (field "cuisine" (Some None) Ok (raw_cuisine p))
       (both (field "diet_type" (Some None) Ok (raw_diet_type p))
       (both (field "ingredients" (Some []) Ok (raw_ingredients p))
       (both (field "instructions" (Some None) Ok (raw_instructions p))
       (both (field "prep_time" (Some None) Ok (raw_prep_time p))
       (both (field "cook_time" (Some None) Ok (raw_cook_time p))
             (field "servings" (Some None) Ok (raw_servings p))))))))).

End RecipeBasic.

Module RecipeRecommendation.

Record payload := {
  raw_recipe : supplied (model_input RecipeBasic.payload RecipeBasic.t);
  raw_similarity_score : supplied float;
  raw_health_score : supplied float;
  raw_relevance_score : supplied (option float);
  raw_reason : supplied str
}.

Record t := {
  recipe : RecipeBasic.t;
  similarity_score : float;
  health_score : float;
  relevance_score : option float;
  reason : str
}.

Definition construct (p : payload) : result t :=
  (fun '(r, (s, (h, (rel, why)))) => Build_t r s h rel why)
    <$> both (field "recipe" required (check_model RecipeBasic.construct) (raw_recipe p))
       (both (field "similarity_score" required (check_float_range f0 f100)
                (raw_similarity_score p))
       (both (field "health_score" required (check_float_range f0 f100)
                (raw_health_score p))
       (both (field "relevance_score" (Some None)
                (nullable (check_float_range f0 f100)) (raw_relevance_score p))
             (field "reason" required Ok (raw_reason p))))).

End RecipeRecommendation.

Module RecipeSearchFilters.

Record payload := {
  raw_cuisine : supplied (option str);
  raw_diet_type : supplied (option str);
  raw_min_calories : supplied (option Z);
  raw_max_calories : supplied (option Z);
  raw_min_protein : supplied (option float);
  raw_max_protein : supplied (option float)
}.

Record t := {
  cuisine : option str;
  diet_type : option str;
  min_calories : option Z;
  max_calories : option Z;
  min_protein : option float;
  max_protein : option float
}.

(** [validate_calorie_range]: [data] is [info.data]. The comparison runs
    when [v] is not [None], the key is in [data] and its value is not
    [None]; a validated [min_calories] is [None] or an [int]. *)
Definition validate_calorie_range (v : option Z) (data : gmap string pyvalue)
    : result (option Z) :=
  match v, data !! "min_calories"%string with
  | Some x, Some (PyInt m) =>
      if x <? m
      then raise_ValueError (lit "max_calories must be greater than min_calories")
      else Ok v
  | _, _ => Ok v
  end.

(** [validate_protein_range], the same on floats. *)
Definition validate_protein_range (v : option float) (data : gmap string pyvalue)
    : result (option float) :=
  match v, data !! "min_protein"%string with
  | Some x, Some (PyFloat m) =>
      if float_lt x m
      then raise_ValueError (lit "max_protein must be greater than min_protein")
      else Ok v
  | _, _ => Ok v
  end.

(** Fields in declaration order; each validated field is added to
    [info.data] before the next one runs. *)
Definition construct (p : payload) : result t :=
  let data : gmap string pyvalue := ∅ in
  let r_cuisine := field "cuisine" (Some None) Ok (raw_cuisine p) in
  let data := store "cuisine" (py_option PyStr) r_cuisine data in
  let r_diet_type := field "diet_type" (Some None) Ok (raw_diet_type p) in
  let data := store "diet_type" (py_option PyStr) r_diet_type data in
  let r_min_calories :=
    field "min_calories" (Some None) (nullable (check_int_ge 0)) (raw_min_calories p) in
  let data := store "min_calories" (py_option PyInt) r_min_calories data in
  let r_max_calories :=
    field "max_calories" (Some None)
      (fun v => v ← nullable (check_int_ge 0) v; validate_calorie_range v data)
      (raw_max_calories p) in
  let data := store "max_calories" (py_option PyInt) r_max_calories data in
  let r_min_protein :=
    field "min_protein" (Some None) (nullable (check_float_ge f0)) (raw_min_protein p) in
  let data := store "min_protein" (py_option PyFloat) r_min_protein data in
  let r_max_protein :=
    field "max_protein" (Some None)
      (fun v => v ← nullable (check_float_ge f0) v; validate_protein_range v data)
      (raw_max_protein p) in
  (fun '(c, (d, (a, (b, (x, y))))) => Build_t c d a b x y)
    <$> both r_cuisine (both r_diet_type (both r_min_calories
       (both r_max_calories (both r_min_protein r_max_protein)))).

End RecipeSearchFilters.

Module QuickMealFilters.

Record payload := {
  raw_max_prep_time : supplied Z;
  raw_max_ingredients : supplied Z;
  raw_max_cost : supplied Z;
  raw_hostel_friendly : supplied bool;
  raw_cuisine : supplied (option str);
  raw_diet_type : supplied (option str)
}.

Record t := {
  max_prep_time : Z;
  max_ingredients : Z;
  max_cost : Z;
  hostel_friendly : bool;
  cuisine : option str;
  diet_type : option str
}.

Definition construct (p : payload) : result t :=
  (fun '(a, (b, (c, (h, (cu, d))))) => Build_t a b c h cu d)
    <$> both (field "max_prep_time" (Some 5) (check_int_range 1 30) (raw_max_prep_time p))
       (both (field "max_ingredients" (Some 3) (check_int_range 1 10) (raw_max_ingredients p))
       (both (field "max_cost" (Some 100) (check_int_range 10 500) (raw_max_cost p))
       (both (field "hostel_friendly" (Some true) Ok (raw_hostel_friendly p))
       (both (field "cuisine" (Some None) Ok (raw_cuisine p))
             (field "diet_type" (Some None) Ok (raw_diet_type p)))))).

(** [QuickMealFilters()]: no field supplied. *)
Definition no_fields : payload :=
  {| raw_max_prep_time := Absent; raw_max_ingredients := Absent;
     raw_max_cost := Absent; raw_hostel_friendly := Absent;
     raw_cuisine := Absent; raw_diet_type := Absent |}.

End QuickMealFilters.

Module QuickMealRecipe.

Record payload := {
  raw_recipe : supplied (model_input RecipeBasic.payload RecipeBasic.t);
  raw_ingredient_count : supplied Z;
  raw_estimated_cost : supplied Z;
  raw_equipment_needed : supplied (list str);
  raw_practical_tips : supplied (option str)
}.

Record t := {
  recipe : RecipeBasic.t;
  ingredient_count : Z;
  estimated_cost : Z;
  equipment_needed : list str;
  practical_tips : option str
}.

Definition construct (p : payload) : result t :=
  (fun '(r, (n, (c, (e, tips)))) => Build_t r n c e tips)
    <$> both (field "recipe" required (check_model RecipeBasic.construct) (raw_recipe p))
       (both (field "ingredient_count" required (check_int_ge 1) (raw_ingredient_count p))
       (both (field "estimated_cost" required (check_int_ge 0) (raw_estimated_cost p))
       (both (field "equipment_needed" (Some []) Ok (raw_equipment_needed p))
             (field "practical_tips" (Some None) Ok (raw_practical_tips p))))).

End QuickMealRecipe.

Module QuickMealResponse.

Section WithAny.
(** The values of [filters_applied] are [Any]. *)
Variable Any : Type.

Record payload := {
  raw_meals : supplied (list (model_input QuickMealRecipe.payload QuickMealRecipe.t));
  raw_total_found : supplied Z;
  raw_filters_applied : supplied (gmap str Any);
  raw_psychological_tip : supplied str
}.

Record t := {
  meals : list QuickMealRecipe.t;
  total_found : Z;
  filters_applied : gmap str Any;
  psychological_tip : str
}.

Definition default_psychological_tip : str :=
  lit "Quick healthy meals help stabilize blood sugar and reduce extreme hunger, making it easier to avoid cravings for junk food.".

Definition construct (p : payload) : result t :=
  (fun '(m, (n, (f, tip))) => Build_t m n f tip)
    <$> both (field "meals" required
                (check_list (check_model QuickMealRecipe.construct)) (raw_meals p))
       (both (field "total_found" required (check_int_ge 0) (raw_total_found p))
       (both (field "filters_applied" required Ok (raw_filters_applied p))
             (field "psychological_tip" (Some default_psychological_tip) Ok
                (raw_psychological_tip p)))).

End WithAny.

Arguments construct {Any} p.
Arguments meals {Any} _.
Arguments total_found {Any} _.
Arguments filters_applied {Any} _.
Arguments psychological_tip {Any} _.
Arguments raw_meals {Any} _.
Arguments raw_total_found {Any} _.
Arguments raw_filters_applied {Any} _.
Arguments raw_psychological_tip {Any} _.
Arguments Build_payload {Any}.
Arguments Build_t {Any}.

End QuickMealResponse.

(* ===================================================================== *)
(** ** Vocabulary of the properties                                       *)
(* ===================================================================== *)

(** A string that does not start with whitespace. *)
Definition starts_clean (x : str) : Prop :=
  match x with [] => True | c :: _ => isspace c = false end.

(** What a supplied optional field amounts to: leaving it out and passing
    [None] both give [None]. *)
Definition value_of {A} (v : supplied (option A)) : option A :=
  match v with Absent => None | Given o => o end.

(** The error reported for a rejected [recipe_name]. *)
Definition recipe_name_rejection (v : str) : error_type :=
  if negb (encodable v) then string_unicode
  else if (length v <? 1)%nat then string_too_short 1
  else if (200 <? length v)%nat then string_too_long 200
  else value_error (lit "Recipe name cannot be empty").

(** The names the models accept: no surrogate code point, at most 200
    code points as supplied, and not made of whitespace only. *)
Definition recipe_name_accepted (v : str) : bool :=
  encodable v && (length v <=? 200)%nat && negb (forallb isspace v).

(** An implementation of the Unicode interface on which the examples are
    run: it leaves strings beyond ASCII unchanged. *)
Definition ascii_only : UnicodeData := {| lower_nonascii := fun x => x |}.

(** An entry that is not empty after stripping. *)
Definition nonblank (x : str) : bool := negb (forallb isspace x).

(** The entries of a supplied list that survive, stripped, in order. *)
Definition kept_entries (l : list str) : list str :=
  map strip (List.filter nonblank l).


Definition with_allergens (v : option (list str)) (r : FullAnalysisRequest.t)
    : FullAnalysisRequest.t :=
  {| FullAnalysisRequest.recipe_name := FullAnalysisRequest.recipe_name r;
     FullAnalysisRequest.ingredients := FullAnalysisRequest.ingredients r;
     FullAnalysisRequest.allergens := v;
     FullAnalysisRequest.avoid_ingredients := FullAnalysisRequest.avoid_ingredients r |}.

Abbreviation full_payload := FullAnalysisRequest.Build_payload.

(** Reduce the projections of a payload written out field by field. *)
Ltac project_payload :=
  cbn [FullAnalysisRequest.raw_recipe_name FullAnalysisRequest.raw_ingredients
       FullAnalysisRequest.raw_allergens FullAnalysisRequest.raw_avoid_ingredients].

(** The valid set, listed in increasing order. *)
Definition valid_allergens_listing : list str :=
  [lit "eggs"; lit "fish"; lit "milk"; lit "peanuts";
   lit "shellfish"; lit "soy"; lit "tree_nuts"; lit "wheat"].

(** The first entry of a list that is not in the valid set. *)
Definition first_invalid (l : list str) : option str :=
  List.find (fun a => negb (bool_decide (a ∈ FullAnalysisRequest.valid_allergens))) l.

(** What the validator makes of a supplied list: the non-blank entries,
    stripped and lowered, in order. *)
Definition normalized_allergens `{UnicodeData} (l : list str) : list str :=
  map (fun a => lower (strip a)) (List.filter nonblank l).

Definition ingredients_empty_message : str :=
  lit "Ingredients list cannot be empty if provided".

(** A request with every list supplied, entries padded with blanks. *)
Definition padded_request : FullAnalysisRequest.payload :=
  full_payload (Given (lit " Chocolate Chip Cookies "))
    (Given (Some [lit " butter "; lit "  "; lit "white flour"]))
    (Given (Some [lit " Milk"; lit "EGGS "]))
    (Given (Some [lit " white sugar "])).

Definition padded_request_stored : FullAnalysisRequest.t :=
  {| FullAnalysisRequest.recipe_name := lit "Chocolate Chip Cookies";
     FullAnalysisRequest.ingredients := Some [lit "butter"; lit "white flour"];
     FullAnalysisRequest.allergens := Some [lit "milk"; lit "eggs"];
     FullAnalysisRequest.avoid_ingredients := Some [lit " white sugar "] |}.

(** The declarative bound [ge=0] on an optional field. *)
Definition int_bound_ok (v : supplied (option Z)) : bool :=
  match value_of v with Some x => 0 <=? x | None => true end.

Definition float_bound_ok (v : supplied (option float)) : bool :=
  match value_of v with Some x => float_ge x f0 | None => true end.

(** The ordering of a pair, as the data model words it: max >= min,
    checked only when both sides are present. *)
Definition calories_ordered (lo hi : supplied (option Z)) : bool :=
  match value_of lo, value_of hi with
  | Some a, Some b => b >=? a
  | _, _ => true
  end.

Definition protein_ordered (lo hi : supplied (option float)) : bool :=
  match value_of lo, value_of hi with
  | Some x, Some y => float_ge y x
  | _, _ => true
  end.

Abbreviation search_payload := RecipeSearchFilters.Build_payload.

(** The literals [-0.1] and [100.0001], as the nearest binary64 values. *)
Definition f_minus_0_1 : float := S754_finite true 7205759403792794 (-56).
Definition f_100_0001 : float := S754_finite false 7036881454640818 (-46).

(** The error of a score outside [0, 100]: the upper bound is checked
    first. *)
Definition score_rejection (v : float) : error_type :=
  if float_le v f100 then greater_than_equal (NFloat f0)
  else less_than_equal (NFloat f100).

Abbreviation recommendation_payload := RecipeRecommendation.Build_payload.

Ltac project_recommendation :=
  cbn [RecipeRecommendation.raw_recipe RecipeRecommendation.raw_similarity_score
       RecipeRecommendation.raw_health_score RecipeRecommendation.raw_relevance_score
       RecipeRecommendation.raw_reason].

(** The recipe of the documented example. *)
Definition tikka : RecipeBasic.t :=
  {| RecipeBasic.id := lit "67890";
     RecipeBasic.name := lit "Healthy Chicken Tikka";
     RecipeBasic.cuisine := Some (lit "Indian");
     RecipeBasic.diet_type := Some (lit "non-vegetarian");
     RecipeBasic.ingredients := [lit "chicken"; lit "yogurt"; lit "spices"];
     RecipeBasic.instructions := None;
     RecipeBasic.prep_time := None;
     RecipeBasic.cook_time := None;
     RecipeBasic.servings := None |}.

(** What a field with a default holds after construction. *)
Definition value_or {A} (default : A) (v : supplied A) : A :=
  match v with Absent => default | Given x => x end.

(** A constructed request read back as a payload, every field supplied
    with the stored value: the model built again from its own dump. *)
Definition as_full_payload (r : FullAnalysisRequest.t) : FullAnalysisRequest.payload :=
  full_payload (Given (FullAnalysisRequest.recipe_name r))
    (Given (FullAnalysisRequest.ingredients r))
    (Given (FullAnalysisRequest.allergens r))
    (Given (FullAnalysisRequest.avoid_ingredients r)).

(** A string that does not end with whitespace. *)
Definition ends_clean (x : str) : Prop := starts_clean (rev x).

(** A stored name: not empty, at most 200 code points, no whitespace at
    either end. *)
Definition clean_name (x : str) : Prop :=
  (1 <= length x <= 200)%nat /\ starts_clean x /\ ends_clean x.

(** All code points of a string are ASCII. *)
Definition all_ascii (x : str) : bool := forallb is_ascii x.

(** The list held by an optional list field, none counting as empty. *)
Definition entries (v : option (list str)) : list str :=
  match v with Some l => l | None => [] end.




(** How many of a list of checks failed. *)
Definition failures (checks : list bool) : nat :=
  length (List.filter negb checks).

(** The payloads a [RecipeSearchFilters] is constructed from: both bounds
    hold on each pair and each pair is ordered. *)
Definition search_filters_accepted (lo hi : supplied (option Z))
    (plo phi : supplied (option float)) : bool :=
  int_bound_ok lo && int_bound_ok hi && calories_ordered lo hi
  && (float_bound_ok plo && float_bound_ok phi && protein_ordered plo phi).

(** The report of one min/max pair: a bound error for each side below
    zero, and the range error on the max side when both sides passed
    their bound and are out of order. *)
Definition pair_errors (min_name max_name : string) (bound : number) (message : str)
    (lo_ok hi_ok ordered : bool) : list line_error :=
  (if lo_ok then [] else [LineError [Key min_name] (greater_than_equal bound)])
  ++ (if hi_ok
      then if negb lo_ok || ordered then []
           else [LineError [Key max_name] (value_error message)]
      else [LineError [Key max_name] (greater_than_equal bound)]).

Definition calories_message : str :=
  lit "max_calories must be greater than min_calories".

Definition protein_message : str :=
  lit "max_protein must be greater than min_protein".

(** A value within the closed range of a bounded integer field. *)
Definition in_range (lo hi v : Z) : bool := (lo <=? v) && (v <=? hi).

(** The error of an integer outside its range: the upper bound is checked
    first. *)
Definition range_rejection (lo hi v : Z) : error_type :=
  if hi <? v then less_than_equal (NInt hi) else greater_than_equal (NInt lo).

(** A score within [0, 100]. *)
Definition score_ok (v : float) : bool := float_le v f100 && float_ge v f0.

(** Is a required field supplied. *)
Definition is_given {A} (v : supplied A) : bool :=
  match v with Given _ => true | Absent => false end.

(** Errors reported under an enclosing location. *)
Definition relocate (path : list loc_item) (es : list line_error) : list line_error :=
  map (fun e => LineError (path ++ loc e) (err e)) es.

(** The error of a required field left out. *)
Definition missing_error {A} (name : string) (v : supplied A) : list line_error :=
  if is_given v then [] else [LineError [Key name] missing].

(** A constructed [RecipeAnalysisRequest] read back as a payload. *)
Definition as_analysis_payload (r : RecipeAnalysisRequest.t) : RecipeAnalysisRequest.payload :=
  {| RecipeAnalysisRequest.raw_recipe_name := Given (RecipeAnalysisRequest.recipe_name r) |}.

(** A required field is supplied with a value that passes a check. *)
Definition supplied_ok {A} (ok : A -> bool) (v : supplied A) : bool :=
  match v with Given x => ok x | Absent => false end.

(** A nested recipe is an instance or a mapping that constructs. *)
Definition recipe_input_ok (m : model_input RecipeBasic.payload RecipeBasic.t) : bool :=
  is_ok (check_model RecipeBasic.construct m).

Definition meal_input_ok (m : model_input QuickMealRecipe.payload QuickMealRecipe.t) : bool :=
  is_ok (check_model QuickMealRecipe.construct m).

Abbreviation response_payload := QuickMealResponse.Build_payload.

(* ===================================================================== *)
(** ** Properties of the string operations                                *)
(* ===================================================================== *)

Section StripFacts.

(** [lstrip] removes a whitespace prefix and nothing else. *)
Lemma lstrip_split (x : str) :
  exists ws, x = ws ++ lstrip x /\ forallb isspace ws = true.
Proof.
  induction x as [|c x IH]; simpl.
  - exists []. split; reflexivity.
  - destruct (isspace c) eqn:Hc.
    + destruct IH as [ws [Hx Hws]]. exists (c :: ws). simpl.
      rewrite Hc, Hws. split; [f_equal; exact Hx | reflexivity].
    + exists []. split; reflexivity.
Qed.

Lemma lstrip_starts_clean (x : str) : starts_clean (lstrip x).
Proof.
  induction x as [|c x IH]; simpl; [exact I|].
  destruct (isspace c) eqn:Hc; [exact IH | exact Hc].
Qed.

Lemma lstrip_clean_id (x : str) : starts_clean x -> lstrip x = x.
Proof. destruct x as [|c x]; simpl; [reflexivity|]. intros ->. reflexivity. Qed.

Lemma lstrip_idem (x : str) : lstrip (lstrip x) = lstrip x.
Proof. apply lstrip_clean_id, lstrip_starts_clean. Qed.

Lemma lstrip_app_space (ws x : str) :
  forallb isspace ws = true -> lstrip (ws ++ x) = lstrip x.
Proof.
  induction ws as [|c ws IH]; simpl; [reflexivity|].
  intros Hc. apply andb_prop in Hc as [Hc Hws]. rewrite Hc. auto.
Qed.

Lemma lstrip_all_space (x : str) :
  truthy (lstrip x) = negb (forallb isspace x).
Proof.
  induction x as [|c x IH]; simpl; [reflexivity|].
  destruct (isspace c); simpl; [exact IH | reflexivity].
Qed.

(** On a string with a non-whitespace code point in it, a suffix takes no
    part in the left scan. *)
Lemma lstrip_app_l (x y : str) :
  truthy (lstrip x) = true -> lstrip (x ++ y) = lstrip x ++ y.
Proof.
  induction x as [|c x IH]; simpl; [discriminate|].
  destruct (isspace c); [exact IH | reflexivity].
Qed.

Lemma rstrip_split (x : str) :
  exists ws, x = rstrip x ++ ws /\ forallb isspace ws = true.
Proof.
  destruct (lstrip_split (rev x)) as [ws [Hx Hws]].
  exists (rev ws). split.
  - unfold rstrip. rewrite <- rev_app_distr, <- Hx, rev_involutive. reflexivity.
  - rewrite forallb_forall in *. intros c Hc. apply Hws, in_rev, Hc.
Qed.

Lemma rstrip_idem (x : str) : rstrip (rstrip x) = rstrip x.
Proof. unfold rstrip. rewrite rev_involutive, lstrip_idem. reflexivity. Qed.

Lemma rstrip_app_space (x ws : str) :
  forallb isspace ws = true -> rstrip (x ++ ws) = rstrip x.
Proof.
  intros Hws. unfold rstrip. rewrite rev_app_distr, lstrip_app_space; [reflexivity|].
  rewrite forallb_forall in *. intros c Hc. apply Hws, in_rev, Hc.
Qed.

Lemma rstrip_all_space (x : str) :
  truthy (rstrip x) = negb (forallb isspace x).
Proof.
  unfold rstrip.
  assert (Ht : forall y : str, truthy (rev y) = truthy y).
  { intros [|c y]; simpl; [reflexivity|]. destruct (rev y); reflexivity. }
  rewrite Ht, lstrip_all_space. f_equal.
  apply eq_true_iff_eq. rewrite !forallb_forall.
  split; intros Hx c Hc; apply Hx; [apply in_rev in Hc | apply in_rev]; exact Hc.
Qed.

(** The right scan leaves a clean start clean. *)
Lemma rstrip_starts_clean (x : str) : starts_clean x -> starts_clean (rstrip x).
Proof.
  intros Hx. destruct (rstrip_split x) as [ws [Hsplit _]].
  destruct (rstrip x) as [|c r] eqn:Hr; [exact I|].
  rewrite Hsplit in Hx. exact Hx.
Qed.

(** Stripping twice is stripping once. *)
Lemma strip_idem (x : str) : strip (strip x) = strip x.
Proof.
  unfold strip.
  rewrite (lstrip_clean_id (rstrip (lstrip x))).
  - apply rstrip_idem.
  - apply rstrip_starts_clean, lstrip_starts_clean.
Qed.

(** A string is empty after stripping exactly when it is all whitespace
    (the empty string included). *)
Lemma strip_truthy (x : str) : truthy (strip x) = negb (forallb isspace x).
Proof.
  unfold strip. rewrite rstrip_all_space.
  destruct (lstrip_split x) as [ws [Hx Hws]].
  rewrite Hx at 2. rewrite forallb_app, Hws. reflexivity.
Qed.

(** Whitespace around a string does not change what [strip] returns. *)
Lemma strip_surrounded (pre x post : str) :
  forallb isspace pre = true -> forallb isspace post = true ->
  strip (pre ++ x ++ post) = strip x.
Proof.
  intros Hpre Hpost. unfold strip. rewrite lstrip_app_space by exact Hpre.
  destruct (truthy (lstrip x)) eqn:Hx.
  - rewrite lstrip_app_l by exact Hx. apply rstrip_app_space, Hpost.
  - assert (Hall : forallb isspace x = true).
    { rewrite lstrip_all_space in Hx. destruct (forallb isspace x); [reflexivity|discriminate]. }
    assert (Hnil : forall y : str, forallb isspace y = true -> rstrip (lstrip y) = []).
    { intros y Hy. pose proof (strip_truthy y) as Hs. unfold strip in Hs.
      rewrite Hy in Hs. destruct (rstrip (lstrip y)); [reflexivity|discriminate]. }
    rewrite (Hnil x Hall). apply Hnil. rewrite forallb_app, Hall, Hpost. reflexivity.
Qed.

Lemma strip_length (x : str) : (length (strip x) <= length x)%nat.
Proof.
  unfold strip.
  destruct (lstrip_split x) as [w1 [H1 _]].
  destruct (rstrip_split (lstrip x)) as [w2 [H2 _]].
  rewrite H1 at 2. rewrite H2 at 2. rewrite !length_app. lia.
Qed.

End StripFacts.

(* ===================================================================== *)
(** ** Properties of float comparison                                     *)
(* ===================================================================== *)

Section FloatFacts.

(** Swapping the operands of a comparison swaps its answer. *)
Lemma SFcompare_swap (a b : float) :
  SFcompare a b = option_map CompOpp (SFcompare b a).
Proof.
  destruct a as [sa|sa| |sa ma ea], b as [sb|sb| |sb mb eb]; simpl;
    try reflexivity;
    try (destruct sa; reflexivity); try (destruct sb; reflexivity);
    try (destruct sa, sb; reflexivity).
  change (Pos.compare_cont Eq ma mb) with (Pos.compare ma mb).
  change (Pos.compare_cont Eq mb ma) with (Pos.compare mb ma).
  rewrite (Z.compare_antisym eb ea), (Pos.compare_antisym mb ma).
  destruct sa, sb, (eb ?= ea), (mb ?= ma)%positive; reflexivity.
Qed.

(** The literals of the models and of the examples are binary64 values. *)
Lemma float_literals_valid :
  Forall (fun x => valid_float x = true) [f0; f100; f_minus_0_1; f_100_0001].
Proof. repeat constructor. Qed.

(** [a < b] excludes [a >= b]. *)
Lemma float_lt_not_ge (a b : float) : float_lt a b = true -> float_ge a b = false.
Proof.
  unfold float_lt, float_ge, SFltb, SFleb. rewrite (SFcompare_swap b a).
  destruct (SFcompare a b) as [[]|]; simpl; congruence.
Qed.

(** [a < b] excludes [b <= a]. *)
Lemma float_lt_not_le (a b : float) : float_lt a b = true -> float_le b a = false.
Proof. exact (float_lt_not_ge a b). Qed.

(** A float that compares with some float is no NaN, and then [not (y < x)]
    is [y >= x]. *)
Lemma float_not_lt_ge (x y b : float) :
  float_ge x b = true -> float_ge y b = true ->
  negb (float_lt y x) = float_ge y x.
Proof.
  unfold float_lt, float_ge, SFltb, SFleb. rewrite (SFcompare_swap x y).
  destruct x, y, b; simpl; try discriminate; intros _ _;
    repeat match goal with |- context [if ?s then _ else _] => destruct s end;
    simpl; try reflexivity;
    match goal with |- context [(?e1 ?= ?e2)] => destruct (e1 ?= e2) end;
    simpl; try reflexivity;
    match goal with |- context [Pos.compare_cont Eq ?m1 ?m2] =>
      destruct (Pos.compare_cont Eq m1 m2) end; reflexivity.
Qed.

End FloatFacts.

(* ===================================================================== *)
(** ** Properties of the construction pass                                *)
(* ===================================================================== *)

Section PassFacts.
Context {A B : Type}.

Lemma is_ok_fmap (f : A -> B) (r : result A) : is_ok (f <$> r) = is_ok r.
Proof. destruct r; reflexivity. Qed.

Lemma errors_of_fmap (f : A -> B) (r : result A) : errors_of (f <$> r) = errors_of r.
Proof. destruct r; reflexivity. Qed.

Lemma is_ok_both (a : result A) (b : result B) :
  is_ok (both a b) = is_ok a && is_ok b.
Proof. destruct a, b; reflexivity. Qed.

Lemma errors_of_both (a : result A) (b : result B) :
  errors_of (both a b) = errors_of a ++ errors_of b.
Proof. destruct a, b; reflexivity. Qed.

Lemma fmap_ok_inv (f : A -> B) (r : result A) (y : B) :
  f <$> r = Ok y -> exists x, r = Ok x /\ y = f x.
Proof. destruct r as [x|es]; simpl; [|discriminate]. intros [= <-]. eauto. Qed.

Lemma both_ok_inv (a : result A) (b : result B) (x : A) (y : B) :
  both a b = Ok (x, y) -> a = Ok x /\ b = Ok y.
Proof. destruct a, b; simpl; try discriminate. intros [= -> ->]. auto. Qed.

End PassFacts.

(** Instances of a model pass through a list field unchanged. *)
Lemma check_list_instances {P T} (construct : P -> result T) (xs : list T) :
  check_list (check_model construct) (map Instance_of xs) = Ok xs.
Proof.
  unfold check_list. generalize 0%nat.
  induction xs as [|x xs IH]; intros i; simpl; [reflexivity|].
  rewrite IH. reflexivity.
Qed.

(* ===================================================================== *)
(** ** recipe_name                                                        *)
(* ===================================================================== *)

Lemma recipe_name_checks (v : str) :
  (v ← check_str 1 200 v; RecipeAnalysisRequest.validate_recipe_name v)
  = if recipe_name_accepted v then Ok (strip v)
    else Err [LineError [] (recipe_name_rejection v)].
Proof.
  unfold recipe_name_accepted, recipe_name_rejection, check_str,
    RecipeAnalysisRequest.validate_recipe_name.
  destruct (encodable v) eqn:Henc; [|reflexivity]. cbn [negb andb].
  destruct (length v <? 1)%nat eqn:Hmin.
  - apply Nat.ltb_lt in Hmin. destruct v; simpl in *; [reflexivity | lia].
  - destruct (200 <? length v)%nat eqn:Hmax.
    + apply Nat.ltb_lt in Hmax.
      assert (Hle : (length v <=? 200)%nat = false) by (apply Nat.leb_gt; lia).
      rewrite Hle. reflexivity.
    + apply Nat.ltb_ge in Hmax. apply Nat.leb_le in Hmax as Hle. rewrite Hle.
      simpl. rewrite strip_truthy.
      destruct v as [|c v]; [simpl in Hmin; discriminate|].
      simpl truthy. simpl negb at 1. rewrite orb_false_l.
      destruct (forallb isspace (c :: v)); reflexivity.
Qed.

Lemma recipe_name_full_checks (v : str) :
  (v ← check_str 1 200 v; FullAnalysisRequest.validate_recipe_name_full v)
  = if recipe_name_accepted v then Ok (strip v)
    else Err [LineError [] (recipe_name_rejection v)].
Proof. exact (recipe_name_checks v). Qed.

Section RecipeName.
Context `{UnicodeData}.

Lemma analysis_request_name (v : str) :
  RecipeAnalysisRequest.construct {| RecipeAnalysisRequest.raw_recipe_name := Given v |}
  = if recipe_name_accepted v
    then Ok {| RecipeAnalysisRequest.recipe_name := strip v |}
    else Err [LineError [Key "recipe_name"] (recipe_name_rejection v)].
Proof.
  unfold RecipeAnalysisRequest.construct, field. simpl.
  rewrite recipe_name_checks. destruct (recipe_name_accepted v); reflexivity.
Qed.

Lemma full_request_name_only (v : str) :
  FullAnalysisRequest.construct
    {| FullAnalysisRequest.raw_recipe_name := Given v;
       FullAnalysisRequest.raw_ingredients := Absent;
       FullAnalysisRequest.raw_allergens := Absent;
       FullAnalysisRequest.raw_avoid_ingredients := Absent |}
  = if recipe_name_accepted v
    then Ok {| FullAnalysisRequest.recipe_name := strip v;
               FullAnalysisRequest.ingredients := None;
               FullAnalysisRequest.allergens := None;
               FullAnalysisRequest.avoid_ingredients := None |}
    else Err [LineError [Key "recipe_name"] (recipe_name_rejection v)].
Proof.
  unfold FullAnalysisRequest.construct, field. simpl.
  rewrite recipe_name_full_checks. destruct (recipe_name_accepted v); reflexivity.
Qed.

(** Whatever the other fields hold, a constructed request stores the
    stripped name of an accepted input. *)
Lemma full_request_name_stored (v : str) i a av (r : FullAnalysisRequest.t) :
  FullAnalysisRequest.construct
    {| FullAnalysisRequest.raw_recipe_name := Given v;
       FullAnalysisRequest.raw_ingredients := i;
       FullAnalysisRequest.raw_allergens := a;
       FullAnalysisRequest.raw_avoid_ingredients := av |} = Ok r ->
  recipe_name_accepted v = true /\ FullAnalysisRequest.recipe_name r = strip v.
Proof.
  unfold FullAnalysisRequest.construct. intros Hr.
  apply fmap_ok_inv in Hr as [[n [i' [a' av']]] [Hr ->]].
  apply both_ok_inv in Hr as [Hn _]. simpl in Hn.
  unfold field in Hn. simpl in Hn. rewrite recipe_name_full_checks in Hn.
  destruct (recipe_name_accepted v); simpl in Hn; [|discriminate].
  injection Hn as <-. split; reflexivity.
Qed.

(** C4, as amended: construction from a string [v] succeeds exactly when
    [v] itself holds no surrogate code point, has at most 200 code points
    and is not all whitespace (the field reads the input as UTF-8 and
    checks its length bound on the input as supplied, before it is
    stripped); the stored [recipe_name] is then [v.strip()], which has
    between 1 and 200 code points. Hence an all-whitespace input fails,
    and accepted inputs that differ only in surrounding whitespace store
    the same name. This holds for [RecipeAnalysisRequest] and for
    [FullAnalysisRequest]. *)
Theorem recipe_name_contract (v pre post : str) :
  forallb isspace pre = true -> forallb isspace post = true ->
  (RecipeAnalysisRequest.construct {| RecipeAnalysisRequest.raw_recipe_name := Given v |}
   = if recipe_name_accepted v
     then Ok {| RecipeAnalysisRequest.recipe_name := strip v |}
     else Err [LineError [Key "recipe_name"] (recipe_name_rejection v)])
  /\ (FullAnalysisRequest.construct
        {| FullAnalysisRequest.raw_recipe_name := Given v;
           FullAnalysisRequest.raw_ingredients := Absent;
           FullAnalysisRequest.raw_allergens := Absent;
           FullAnalysisRequest.raw_avoid_ingredients := Absent |}
      = if recipe_name_accepted v
        then Ok {| FullAnalysisRequest.recipe_name := strip v;
                   FullAnalysisRequest.ingredients := None;
                   FullAnalysisRequest.allergens := None;
                   FullAnalysisRequest.avoid_ingredients := None |}
        else Err [LineError [Key "recipe_name"] (recipe_name_rejection v)])
  /\ (forall i a av r,
        FullAnalysisRequest.construct
          {| FullAnalysisRequest.raw_recipe_name := Given v;
             FullAnalysisRequest.raw_ingredients := i;
             FullAnalysisRequest.raw_allergens := a;
             FullAnalysisRequest.raw_avoid_ingredients := av |} = Ok r ->
        recipe_name_accepted v = true /\ FullAnalysisRequest.recipe_name r = strip v)
  /\ (recipe_name_accepted v = true ->
        strip (strip v) = strip v /\ (1 <= length (strip v) <= 200)%nat)
  /\ (forallb isspace v = true -> recipe_name_accepted v = false)
  /\ strip (pre ++ v ++ post) = strip v.
Proof.
  intros Hpre Hpost.
  split; [apply analysis_request_name|].
  split; [apply full_request_name_only|].
  split; [intros i a av r; apply full_request_name_stored|].
  split; [|split].
  - unfold recipe_name_accepted. intros Hacc.
    apply andb_prop in Hacc as [Hlen Hws].
    apply andb_prop in Hlen as [_ Hlen]. apply Nat.leb_le in Hlen.
    split; [apply strip_idem|].
    pose proof (strip_length v) as Hs. rewrite <- strip_truthy in Hws.
    destruct (strip v); [discriminate|]. simpl in *. lia.
  - unfold recipe_name_accepted. intros ->. apply andb_false_r.
  - apply strip_surrounded; assumption.
Qed.

End RecipeName.

(** The contract at the name of the documented example, with blanks
    around it. *)
Lemma recipe_name_contract_witness :
  RecipeAnalysisRequest.construct
    {| RecipeAnalysisRequest.raw_recipe_name := Given (lit "  Chicken Curry ") |}
  = Ok {| RecipeAnalysisRequest.recipe_name := lit "Chicken Curry" |}
  /\ strip (lit "  " ++ lit "Chicken Curry" ++ lit " ") = lit "Chicken Curry".
Proof.
  pose proof (@recipe_name_contract ascii_only (lit "Chicken Curry") (lit "  ") (lit " ")
                eq_refl eq_refl) as [_ [_ [_ [_ [_ Hs]]]]].
  pose proof (@recipe_name_contract ascii_only (lit "  Chicken Curry ") [] []
                eq_refl eq_refl) as [Hc _].
  split; [exact Hc | rewrite Hs; reflexivity].
Defined.

(** C4 as stated fails: a name followed by 200 blanks strips to one code
    point, within 1..200 and non-empty, and yet both models reject the
    input, as longer than 200. *)
Lemma recipe_name_trimmed_length_counterexample :
  truthy (strip (lit "a" ++ repeat 32%N 200)) = true
  /\ length (strip (lit "a" ++ repeat 32%N 200)) = 1%nat
  /\ RecipeAnalysisRequest.construct
       {| RecipeAnalysisRequest.raw_recipe_name := Given (lit "a" ++ repeat 32%N 200) |}
     = Err [LineError [Key "recipe_name"] (string_too_long 200)]
  /\ @FullAnalysisRequest.construct ascii_only
       {| FullAnalysisRequest.raw_recipe_name := Given (lit "a" ++ repeat 32%N 200);
          FullAnalysisRequest.raw_ingredients := Absent;
          FullAnalysisRequest.raw_allergens := Absent;
          FullAnalysisRequest.raw_avoid_ingredients := Absent |}
     = Err [LineError [Key "recipe_name"] (string_too_long 200)].
Proof. repeat split; vm_compute; reflexivity. Qed.

(** A name that holds a surrogate code point is rejected as not being a
    unicode string, before any length is counted. *)
Lemma recipe_name_surrogate_rejected :
  RecipeAnalysisRequest.construct
    {| RecipeAnalysisRequest.raw_recipe_name := Given [55296%N] |}
  = Err [LineError [Key "recipe_name"] string_unicode]
  /\ @FullAnalysisRequest.construct ascii_only
       {| FullAnalysisRequest.raw_recipe_name := Given (lit "Dal" ++ [57343%N]);
          FullAnalysisRequest.raw_ingredients := Absent;
          FullAnalysisRequest.raw_allergens := Absent;
          FullAnalysisRequest.raw_avoid_ingredients := Absent |}
     = Err [LineError [Key "recipe_name"] string_unicode].
Proof. split; vm_compute; reflexivity. Qed.

(* ===================================================================== *)
(** ** FullAnalysisRequest: the list fields                               *)
(* ===================================================================== *)

Lemma filter_truthy_strip (l : list str) :
  List.filter (fun x => truthy (strip x)) l = List.filter nonblank l.
Proof. apply filter_ext. intros x. apply strip_truthy. Qed.

Lemma kept_entries_trimmed (l : list str) :
  Forall (fun e => strip e = e) (kept_entries l).
Proof.
  unfold kept_entries. apply Forall_map, Forall_forall. intros x _.
  simpl. apply strip_idem.
Qed.

Lemma kept_entries_nonempty (l : list str) :
  Forall (fun e => truthy e = true) (kept_entries l).
Proof.
  unfold kept_entries. apply Forall_map, Forall_forall. intros x Hx.
  apply list_elem_of_In, filter_In in Hx as [_ Hx]. simpl.
  rewrite strip_truthy. exact Hx.
Qed.

(** No entry is kept exactly when every entry is blank. *)
Lemma kept_entries_nil (l : list str) :
  (length (kept_entries l) =? 0)%nat = forallb (fun x => negb (nonblank x)) l.
Proof.
  unfold kept_entries. rewrite length_map.
  induction l as [|x l IH]; simpl; [reflexivity|].
  destruct (nonblank x); simpl; [reflexivity | exact IH].
Qed.

Section FullRequestFields.
Context `{UnicodeData}.


Lemma construct_allergens_ok n i v av v' :
  FullAnalysisRequest.validate_allergens v = Ok v' ->
  FullAnalysisRequest.construct (full_payload n i (Given v) av)
  = with_allergens v' <$> FullAnalysisRequest.construct (full_payload n i Absent av).
Proof.
  intros Hv. unfold FullAnalysisRequest.construct. project_payload.
  unfold field at 3 7. rewrite Hv.
  destruct (field "recipe_name" _ _ n) as [?|?],
           (field "ingredients" _ _ i) as [?|?],
           (field "avoid_ingredients" _ _ av) as [?|?]; reflexivity.
Qed.

(** A field whose validator raises makes the construction fail, and its
    error is among those reported, under the name of the field. *)
Lemma construct_ingredients_err n v a av e :
  FullAnalysisRequest.validate_ingredients v = Err [LineError [] e] ->
  is_ok (FullAnalysisRequest.construct (full_payload n (Given v) a av)) = false
  /\ In (LineError [Key "ingredients"] e)
        (errors_of (FullAnalysisRequest.construct (full_payload n (Given v) a av))).
Proof.
  intros Hv. unfold FullAnalysisRequest.construct.
  rewrite is_ok_fmap, errors_of_fmap, !is_ok_both, !errors_of_both. project_payload.
  unfold field at 2 6. rewrite Hv. simpl. split.
  - apply andb_false_r.
  - apply in_or_app. right. left. reflexivity.
Qed.


End FullRequestFields.

(* ===================================================================== *)
(** ** FullAnalysisRequest: allergens                                     *)
(* ===================================================================== *)

Lemma sorted_valid_allergens :
  sorted (elements FullAnalysisRequest.valid_allergens) = valid_allergens_listing.
Proof. vm_compute. reflexivity. Qed.

(** [sorted] returns the members of the set, each once, strictly
    increasing. *)
Lemma valid_allergens_listing_spec :
  (forall e, e ∈ valid_allergens_listing <-> e ∈ FullAnalysisRequest.valid_allergens)
  /\ StronglySorted (fun a b => str_ltb a b = true) valid_allergens_listing.
Proof.
  split.
  - intros e. rewrite <- sorted_valid_allergens. unfold sorted.
    rewrite merge_sort_Permutation. apply elem_of_elements.
  - unfold valid_allergens_listing. repeat constructor.
Qed.


Lemma check_allergens_first_invalid (l : list str) :
  FullAnalysisRequest.check_allergens l
  = match first_invalid l with
    | None => Ok tt
    | Some bad => raise_ValueError (FullAnalysisRequest.invalid_allergen_message bad)
    end.
Proof.
  induction l as [|a l IH]; simpl; [reflexivity|].
  destruct (bool_decide (a ∈ FullAnalysisRequest.valid_allergens)); simpl;
    [exact IH | reflexivity].
Qed.

Lemma first_invalid_none (l : list str) :
  first_invalid l = None -> Forall (fun e => e ∈ FullAnalysisRequest.valid_allergens) l.
Proof.
  intros Hnone. apply Forall_forall. intros e He.
  apply list_elem_of_In in He.
  pose proof (find_none _ _ Hnone e He) as Hb. simpl in Hb.
  apply negb_false_iff, bool_decide_eq_true in Hb. exact Hb.
Qed.


Section Allergens.
Context `{UnicodeData}.

(** Every member of the valid set is its own stripped and lowered form. *)
Lemma valid_allergen_normal (e : str) :
  e ∈ FullAnalysisRequest.valid_allergens -> strip e = e /\ lower e = e.
Proof.
  intros He. apply (proj1 valid_allergens_listing_spec) in He.
  unfold valid_allergens_listing in He.
  repeat (apply elem_of_cons in He as [->|He]; [split; reflexivity|]).
  apply elem_of_nil in He. destruct He.
Qed.

Lemma validate_allergens_list (l : list str) :
  FullAnalysisRequest.validate_allergens (Some l)
  = match first_invalid (normalized_allergens l) with
    | None => Ok (Some (normalized_allergens l))
    | Some bad => raise_ValueError (FullAnalysisRequest.invalid_allergen_message bad)
    end.
Proof.
  unfold FullAnalysisRequest.validate_allergens, normalized_allergens.
  rewrite filter_truthy_strip, check_allergens_first_invalid.
  destruct (first_invalid _); reflexivity.
Qed.


End Allergens.


(* ===================================================================== *)
(** ** FullAnalysisRequest: ingredients, and what the lists store         *)
(* ===================================================================== *)

Lemma at_loc_ok_inv {A} (k : loc_item) (r : result A) (x : A) :
  at_loc k r = Ok x -> r = Ok x.
Proof. destruct r; simpl; congruence. Qed.


Lemma validate_ingredients_list (l : list str) :
  FullAnalysisRequest.validate_ingredients (Some l)
  = if forallb (fun x => negb (nonblank x)) l
    then raise_ValueError ingredients_empty_message
    else Ok (Some (kept_entries l)).
Proof.
  unfold FullAnalysisRequest.validate_ingredients.
  rewrite filter_truthy_strip. fold (kept_entries l).
  rewrite kept_entries_nil. reflexivity.
Qed.

(** Every entry is empty after stripping: every entry is blank. *)
Lemma all_blank_strip (l : list str) :
  forallb (fun x => negb (truthy (strip x))) l
  = forallb (fun x => negb (nonblank x)) l.
Proof.
  induction l as [|x l IH]; simpl; [reflexivity|].
  rewrite strip_truthy, IH. reflexivity.
Qed.

Section Ingredients.
Context `{UnicodeData}.



(** C8: a supplied allergens list whose entries are all empty after
    stripping is accepted: the construction goes as without the field and
    stores the empty list; with a name the field accepts (no surrogate, at
    most 200 code points, not all whitespace) and nothing else it succeeds.
    The same list supplied as ingredients makes the construction fail. *)
Theorem blank_allergens_accepted n i a av (v : str) (l : list str) :
  forallb (fun x => negb (truthy (strip x))) l = true ->
  recipe_name_accepted v = true ->
  FullAnalysisRequest.validate_allergens (Some l) = Ok (Some [])
  /\ FullAnalysisRequest.construct (full_payload n i (Given (Some l)) av)
     = with_allergens (Some []) <$> FullAnalysisRequest.construct (full_payload n i Absent av)
  /\ FullAnalysisRequest.construct (full_payload (Given v) Absent (Given (Some l)) Absent)
     = Ok {| FullAnalysisRequest.recipe_name := strip v;
             FullAnalysisRequest.ingredients := None;
             FullAnalysisRequest.allergens := Some [];
             FullAnalysisRequest.avoid_ingredients := None |}
  /\ is_ok (FullAnalysisRequest.construct (full_payload n (Given (Some l)) a av)) = false.
Proof.
  intros Hl Hv.
  assert (Hblank : forallb (fun x => negb (nonblank x)) l = true).
  { rewrite <- Hl. symmetry. apply all_blank_strip. }
  assert (Hnone : List.filter nonblank l = []).
  { clear Hl. induction l as [|x l IH]; simpl in *; [reflexivity|].
    apply andb_prop in Hblank as [Hx Hrest].
    apply negb_true_iff in Hx. rewrite Hx. auto. }
  assert (Hval : FullAnalysisRequest.validate_allergens (Some l) = Ok (Some [])).
  { rewrite validate_allergens_list. unfold normalized_allergens.
    rewrite Hnone. reflexivity. }
  split; [exact Hval|]. split; [apply construct_allergens_ok, Hval|]. split.
  - rewrite (construct_allergens_ok _ _ _ _ _ Hval), full_request_name_only, Hv.
    reflexivity.
  - apply (construct_ingredients_err n (Some l) a av (value_error ingredients_empty_message)).
    rewrite validate_ingredients_list, Hblank. reflexivity.
Qed.

(** C7, as amended: in a constructed request every stored entry of
    [ingredients] and of [allergens] equals its own stripped form;
    [avoid_ingredients], which has no validator, is stored as supplied. *)
Theorem stored_lists_trimmed (p : FullAnalysisRequest.payload) (r : FullAnalysisRequest.t) :
  FullAnalysisRequest.construct p = Ok r ->
  (forall l, FullAnalysisRequest.ingredients r = Some l -> Forall (fun e => strip e = e) l)
  /\ (forall l, FullAnalysisRequest.allergens r = Some l -> Forall (fun e => strip e = e) l)
  /\ FullAnalysisRequest.avoid_ingredients r
     = value_of (FullAnalysisRequest.raw_avoid_ingredients p).
Proof.
  unfold FullAnalysisRequest.construct. intros Hr.
  apply fmap_ok_inv in Hr as [[n [i [a av]]] [Hr ->]].
  apply both_ok_inv in Hr as [_ Hr].
  apply both_ok_inv in Hr as [Hi Hr].
  apply both_ok_inv in Hr as [Ha Hav]. simpl.
  split; [|split].
  - intros l ->. destruct (FullAnalysisRequest.raw_ingredients p) as [|[l0|]];
      unfold field in Hi; try discriminate;
      apply at_loc_ok_inv in Hi.
    rewrite validate_ingredients_list in Hi.
    destruct (forallb _ l0); [discriminate|].
    injection Hi as <-. apply kept_entries_trimmed.
  - intros l ->. destruct (FullAnalysisRequest.raw_allergens p) as [|[l0|]];
      unfold field in Ha; try discriminate;
      apply at_loc_ok_inv in Ha.
    rewrite validate_allergens_list in Ha.
    destruct (first_invalid (normalized_allergens l0)) eqn:Hfirst; [discriminate|].
    injection Ha as <-. apply first_invalid_none in Hfirst.
    eapply Forall_impl; [exact Hfirst|].
    intros e He. apply valid_allergen_normal, He.
  - destruct (FullAnalysisRequest.raw_avoid_ingredients p); simpl in *; congruence.
Qed.

End Ingredients.

Lemma blank_allergens_accepted_witness :
  @FullAnalysisRequest.construct ascii_only
    (full_payload (Given (lit "Dal")) Absent (Given (Some [lit "  "; []; lit " "])) Absent)
  = Ok {| FullAnalysisRequest.recipe_name := lit "Dal";
          FullAnalysisRequest.ingredients := None;
          FullAnalysisRequest.allergens := Some [];
          FullAnalysisRequest.avoid_ingredients := None |}.
Proof.
  exact (proj1 (proj2 (proj2
    (@blank_allergens_accepted ascii_only (Given (lit "Dal")) Absent Absent Absent
       (lit "Dal") [lit "  "; []; lit " "] eq_refl eq_refl)))).
Defined.

Lemma stored_lists_trimmed_witness :
  @FullAnalysisRequest.construct ascii_only padded_request = Ok padded_request_stored
  /\ Forall (fun e => strip e = e) [lit "butter"; lit "white flour"]
  /\ Forall (fun e => strip e = e) [lit "milk"; lit "eggs"]
  /\ FullAnalysisRequest.avoid_ingredients padded_request_stored
     = Some [lit " white sugar "].
Proof.
  assert (Hc : @FullAnalysisRequest.construct ascii_only padded_request
               = Ok padded_request_stored) by (vm_compute; reflexivity).
  destruct (@stored_lists_trimmed ascii_only padded_request padded_request_stored Hc)
    as [Hi [Ha Hav]].
  split; [exact Hc|]. split; [exact (Hi _ eq_refl)|]. split; [exact (Ha _ eq_refl)|].
  exact Hav.
Defined.

(** C7 as stated fails for [avoid_ingredients]: an entry with blanks
    around it is stored with them. *)
Lemma avoid_ingredients_untrimmed_counterexample :
  exists r e,
    @FullAnalysisRequest.construct ascii_only
      (full_payload (Given (lit "Cookies")) Absent Absent (Given (Some [lit " butter "])))
    = Ok r
    /\ FullAnalysisRequest.avoid_ingredients r = Some [e]
    /\ strip e <> e.
Proof.
  eexists. exists (lit " butter ").
  split; [vm_compute; reflexivity|]. split; [reflexivity|].
  vm_compute. discriminate.
Qed.

(* ===================================================================== *)
(** ** RecipeSearchFilters: the range checks                              *)
(* ===================================================================== *)

(** [info.data] after a field was validated: the field's entry is its
    value when the validation succeeded, other entries are untouched. *)
Lemma store_lookup_same {A} (name : string) (inj : A -> pyvalue) (r : result A)
    (data : gmap string pyvalue) :
  store name inj r data !! name
  = match r with Ok v => Some (inj v) | Err _ => data !! name end.
Proof. destruct r; simpl; [apply lookup_insert_eq | reflexivity]. Qed.

Lemma store_lookup_other {A} (name name' : string) (inj : A -> pyvalue)
    (r : result A) (data : gmap string pyvalue) :
  name <> name' -> store name inj r data !! name' = data !! name'.
Proof. intros Hne. destruct r; simpl; [apply lookup_insert_ne, Hne | reflexivity]. Qed.

Lemma optional_int_field (name : string) (v : supplied (option Z)) :
  field name (Some None) (nullable (check_int_ge 0)) v
  = if int_bound_ok v then Ok (value_of v)
    else Err [LineError [Key name] (greater_than_equal (NInt 0))].
Proof.
  unfold int_bound_ok. destruct v as [|[x|]]; simpl; try reflexivity.
  unfold check_int_ge. rewrite (Z.leb_antisym x 0).
  destruct (x <? 0); reflexivity.
Qed.

Lemma optional_float_field (name : string) (v : supplied (option float)) :
  field name (Some None) (nullable (check_float_ge f0)) v
  = if float_bound_ok v then Ok (value_of v)
    else Err [LineError [Key name] (greater_than_equal (NFloat f0))].
Proof.
  unfold float_bound_ok. destruct v as [|[x|]]; simpl; try reflexivity.
  unfold check_float_ge. destruct (float_ge x f0); reflexivity.
Qed.

(** The [max_calories] field, given what [info.data] holds for
    [min_calories]: the validated value, or nothing when it was rejected. *)
Lemma max_calories_field (lo hi : supplied (option Z)) (data : gmap string pyvalue) :
  data !! "min_calories"%string
  = (if int_bound_ok lo then Some (py_option PyInt (value_of lo)) else None) ->
  is_ok (field "max_calories" (Some None)
           (fun v => v ← nullable (check_int_ge 0) v;
                     RecipeSearchFilters.validate_calorie_range v data) hi)
  = int_bound_ok hi && (negb (int_bound_ok lo) || calories_ordered lo hi).
Proof.
  intros Hdata. unfold calories_ordered, int_bound_ok in *.
  destruct hi as [|[b|]]; simpl.
  - destruct (value_of lo) as [a|]; simpl; [destruct (0 <=? a)|]; reflexivity.
  - unfold check_int_ge. rewrite (Z.leb_antisym b 0).
    destruct (b <? 0); simpl; [reflexivity|].
    unfold RecipeSearchFilters.validate_calorie_range. rewrite Hdata.
    destruct (value_of lo) as [a|]; simpl.
    + destruct (0 <=? a); simpl; [|reflexivity].
      rewrite Z.geb_leb, (Z.leb_antisym b a). destruct (b <? a); reflexivity.
    + reflexivity.
  - destruct (value_of lo) as [a|]; simpl; [destruct (0 <=? a)|]; reflexivity.
Qed.

Lemma max_protein_field (lo hi : supplied (option float)) (data : gmap string pyvalue) :
  data !! "min_protein"%string
  = (if float_bound_ok lo then Some (py_option PyFloat (value_of lo)) else None) ->
  is_ok (field "max_protein" (Some None)
           (fun v => v ← nullable (check_float_ge f0) v;
                     RecipeSearchFilters.validate_protein_range v data) hi)
  = float_bound_ok hi && (negb (float_bound_ok lo) || protein_ordered lo hi).
Proof.
  intros Hdata. unfold protein_ordered, float_bound_ok in *.
  destruct hi as [|[y|]]; simpl.
  - destruct (value_of lo) as [x|]; simpl; [destruct (float_ge x f0)|]; reflexivity.
  - unfold check_float_ge. destruct (float_ge y f0) eqn:Hy; simpl; [|reflexivity].
    unfold RecipeSearchFilters.validate_protein_range. rewrite Hdata.
    destruct (value_of lo) as [x|]; simpl.
    + destruct (float_ge x f0) eqn:Hx; simpl; [|reflexivity].
      rewrite <- (float_not_lt_ge x y f0 Hx Hy).
      destruct (float_lt y x); reflexivity.
    + reflexivity.
  - destruct (value_of lo) as [x|]; simpl; [destruct (float_ge x f0)|]; reflexivity.
Qed.

(** Success of the pass, field by field. *)
Lemma search_filters_accepts c d lo hi plo phi :
  is_ok (RecipeSearchFilters.construct (search_payload c d lo hi plo phi))
  = int_bound_ok lo && int_bound_ok hi && calories_ordered lo hi
    && (float_bound_ok plo && float_bound_ok phi && protein_ordered plo phi).
Proof.
  unfold RecipeSearchFilters.construct.
  cbn [RecipeSearchFilters.raw_cuisine RecipeSearchFilters.raw_diet_type
       RecipeSearchFilters.raw_min_calories RecipeSearchFilters.raw_max_calories
       RecipeSearchFilters.raw_min_protein RecipeSearchFilters.raw_max_protein].
  cbv zeta. rewrite is_ok_fmap, !is_ok_both.
  rewrite (max_calories_field lo), (max_protein_field plo).
  - rewrite !optional_int_field, !optional_float_field.
    assert (Hc : is_ok (field "cuisine" (Some None) Ok c) = true) by (destruct c; reflexivity).
    assert (Hd : is_ok (field "diet_type" (Some None) Ok d) = true) by (destruct d; reflexivity).
    rewrite Hc, Hd.
    destruct (int_bound_ok lo), (int_bound_ok hi), (calories_ordered lo hi),
      (float_bound_ok plo), (float_bound_ok phi), (protein_ordered plo phi); reflexivity.
  - rewrite store_lookup_same, optional_float_field.
    destruct (float_bound_ok plo); [reflexivity|].
    rewrite !store_lookup_other by discriminate. apply lookup_empty.
  - rewrite store_lookup_same, optional_int_field.
    destruct (int_bound_ok lo); [reflexivity|].
    rewrite !store_lookup_other by discriminate. apply lookup_empty.
Qed.

(** C3: with [min_calories] and [max_calories] both present and each
    non-negative, the construction succeeds exactly when
    [max_calories >= min_calories] (and the rest of the payload is
    accepted); when either of the two is left out or [None], the pair
    takes no part in the outcome. The same holds of [min_protein] and
    [max_protein]. *)
Theorem range_check_contract c d (a b : Z) (x y : float) :
  0 <= a -> 0 <= b -> float_ge x f0 = true -> float_ge y f0 = true ->
  (forall plo phi,
     is_ok (RecipeSearchFilters.construct
              (search_payload c d (Given (Some a)) (Given (Some b)) plo phi))
     = (b >=? a)
       && is_ok (RecipeSearchFilters.construct (search_payload c d Absent Absent plo phi)))
  /\ is_ok (RecipeSearchFilters.construct
              (search_payload c d (Given (Some a)) (Given (Some b)) Absent Absent))
     = (b >=? a)
  /\ (forall lo hi,
        is_ok (RecipeSearchFilters.construct
                 (search_payload c d lo hi (Given (Some x)) (Given (Some y))))
        = float_ge y x
          && is_ok (RecipeSearchFilters.construct (search_payload c d lo hi Absent Absent)))
  /\ is_ok (RecipeSearchFilters.construct
              (search_payload c d Absent Absent (Given (Some x)) (Given (Some y))))
     = float_ge y x
  /\ Forall (fun pair : supplied (option Z) * supplied (option Z) =>
               forall plo phi,
                 is_ok (RecipeSearchFilters.construct
                          (search_payload c d (fst pair) (snd pair) plo phi))
                 = is_ok (RecipeSearchFilters.construct
                            (search_payload c d Absent Absent plo phi)))
            [(Absent, Absent); (Absent, Given None);
             (Given None, Absent); (Given None, Given None);
             (Absent, Given (Some b)); (Given None, Given (Some b));
             (Given (Some a), Absent); (Given (Some a), Given None)]
  /\ Forall (fun pair : supplied (option float) * supplied (option float) =>
               forall lo hi,
                 is_ok (RecipeSearchFilters.construct
                          (search_payload c d lo hi (fst pair) (snd pair)))
                 = is_ok (RecipeSearchFilters.construct
                            (search_payload c d lo hi Absent Absent)))
            [(Absent, Absent); (Absent, Given None);
             (Given None, Absent); (Given None, Given None);
             (Absent, Given (Some y)); (Given None, Given (Some y));
             (Given (Some x), Absent); (Given (Some x), Given None)].
Proof.
  intros Ha Hb Hx Hy.
  apply Z.leb_le in Ha, Hb.
  assert (Hints : forall lo hi plo phi,
    is_ok (RecipeSearchFilters.construct (search_payload c d lo hi plo phi))
    = int_bound_ok lo && int_bound_ok hi && calories_ordered lo hi
      && is_ok (RecipeSearchFilters.construct (search_payload c d Absent Absent plo phi))).
  { intros. rewrite !search_filters_accepts. reflexivity. }
  assert (Hfloats : forall lo hi plo phi,
    is_ok (RecipeSearchFilters.construct (search_payload c d lo hi plo phi))
    = float_bound_ok plo && float_bound_ok phi && protein_ordered plo phi
      && is_ok (RecipeSearchFilters.construct (search_payload c d lo hi Absent Absent))).
  { intros. rewrite !search_filters_accepts. simpl.
    rewrite andb_true_r. apply andb_comm. }
  repeat split.
  - intros plo phi. rewrite Hints. unfold int_bound_ok, calories_ordered. simpl.
    rewrite Ha, Hb. reflexivity.
  - rewrite search_filters_accepts. unfold int_bound_ok, calories_ordered. simpl.
    rewrite Ha, Hb. simpl. apply andb_true_r.
  - intros lo hi. rewrite Hfloats. unfold float_bound_ok, protein_ordered. simpl.
    rewrite Hx, Hy. reflexivity.
  - rewrite search_filters_accepts. unfold float_bound_ok, protein_ordered. simpl.
    rewrite Hx, Hy. reflexivity.
  - repeat constructor; intros plo phi; rewrite Hints;
      unfold int_bound_ok, calories_ordered; simpl; rewrite ?Ha, ?Hb; reflexivity.
  - repeat constructor; intros lo hi; rewrite Hfloats;
      unfold float_bound_ok, protein_ordered; simpl; rewrite ?Hx, ?Hy; reflexivity.
Qed.

(** The contract at the pairs 200, 500 and 500, 200. *)
Lemma range_check_contract_witness :
  is_ok (RecipeSearchFilters.construct
           (search_payload Absent Absent (Given (Some 200)) (Given (Some 500)) Absent Absent))
  = true
  /\ is_ok (RecipeSearchFilters.construct
              (search_payload Absent Absent (Given (Some 500)) (Given (Some 200)) Absent Absent))
     = false
  /\ is_ok (RecipeSearchFilters.construct
              (search_payload Absent Absent Absent Absent (Given (Some f100)) (Given (Some f0))))
     = false.
Proof.
  pose proof (range_check_contract Absent Absent 200 500 f0 f100
                ltac:(lia) ltac:(lia) eq_refl eq_refl) as [_ [H1 _]].
  pose proof (range_check_contract Absent Absent 500 200 f100 f0
                ltac:(lia) ltac:(lia) eq_refl eq_refl) as [_ [H2 [_ [H3 _]]]].
  split; [exact H1|]. split; [exact H2 | exact H3].
Defined.

(* ===================================================================== *)
(** ** RecipeRecommendation: the score bounds                             *)
(* ===================================================================== *)

Lemma score_out_of_range (v : float) :
  float_lt v f0 = true \/ float_lt f100 v = true ->
  check_float_range f0 f100 v = Err [LineError [] (score_rejection v)].
Proof.
  intros Hout. unfold check_float_range, check_float_le, check_float_ge, score_rejection.
  destruct (float_le v f100) eqn:Hle; simpl; [|reflexivity].
  destruct Hout as [Hlt|Hgt].
  - rewrite (float_lt_not_ge _ _ Hlt). reflexivity.
  - rewrite (float_lt_not_le _ _ Hgt) in Hle. discriminate.
Qed.

Lemma score_at_bound (v : float) :
  In v [f0; f100] -> check_float_range f0 f100 v = Ok v.
Proof. intros [<-|[<-|[]]]; reflexivity. Qed.

(** C5: the bounds of the three scores are inclusive: with a recipe and a
    reason given, scores equal to 0.0 or 100.0 are accepted and stored.
    A score strictly below 0.0 or strictly above 100.0 makes the
    construction fail, with an error under the name of that score,
    whatever the other fields hold. *)
Theorem score_bounds_contract (v : float) :
  float_lt v f0 = true \/ float_lt f100 v = true ->
  (forall rc why s h r,
     In s [f0; f100] -> In h [f0; f100] -> In r [f0; f100] ->
     RecipeRecommendation.construct
       (recommendation_payload (Given (Instance_of rc)) (Given s) (Given h)
          (Given (Some r)) (Given why))
     = Ok {| RecipeRecommendation.recipe := rc;
             RecipeRecommendation.similarity_score := s;
             RecipeRecommendation.health_score := h;
             RecipeRecommendation.relevance_score := Some r;
             RecipeRecommendation.reason := why |})
  /\ (forall rc h rel why,
        is_ok (RecipeRecommendation.construct
                 (recommendation_payload rc (Given v) h rel why)) = false
        /\ In (LineError [Key "similarity_score"] (score_rejection v))
              (errors_of (RecipeRecommendation.construct
                            (recommendation_payload rc (Given v) h rel why))))
  /\ (forall rc s rel why,
        is_ok (RecipeRecommendation.construct
                 (recommendation_payload rc s (Given v) rel why)) = false
        /\ In (LineError [Key "health_score"] (score_rejection v))
              (errors_of (RecipeRecommendation.construct
                            (recommendation_payload rc s (Given v) rel why))))
  /\ (forall rc s h why,
        is_ok (RecipeRecommendation.construct
                 (recommendation_payload rc s h (Given (Some v)) why)) = false
        /\ In (LineError [Key "relevance_score"] (score_rejection v))
              (errors_of (RecipeRecommendation.construct
                            (recommendation_payload rc s h (Given (Some v)) why)))).
Proof.
  intros Hout. pose proof (score_out_of_range v Hout) as Hv.
  split; [|split; [|split]].
  - intros rc why s h r Hs Hh Hr.
    unfold RecipeRecommendation.construct. project_recommendation.
    unfold field, nullable. simpl check_model.
    rewrite (score_at_bound s Hs), (score_at_bound h Hh), (score_at_bound r Hr).
    reflexivity.
  - intros rc h rel why. unfold RecipeRecommendation.construct.
    rewrite is_ok_fmap, errors_of_fmap, !is_ok_both, !errors_of_both.
    project_recommendation. unfold field at 2 7. rewrite Hv. simpl. split.
    + apply andb_false_r.
    + apply in_or_app. right. left. reflexivity.
  - intros rc s rel why. unfold RecipeRecommendation.construct.
    rewrite is_ok_fmap, errors_of_fmap, !is_ok_both, !errors_of_both.
    project_recommendation. unfold field at 3 8. rewrite Hv. simpl. split.
    + rewrite andb_false_r. apply andb_false_r.
    + apply in_or_app. right. apply in_or_app. right. left. reflexivity.
  - intros rc s h why. unfold RecipeRecommendation.construct.
    rewrite is_ok_fmap, errors_of_fmap, !is_ok_both, !errors_of_both.
    project_recommendation. unfold field at 4 9. unfold nullable. rewrite Hv. simpl. split.
    + rewrite !andb_false_r. reflexivity.
    + do 3 (apply in_or_app; right). left. reflexivity.
Qed.

(** The contract at [-0.1] and at [100.0001]. *)
Lemma score_bounds_contract_witness :
  valid_float f_minus_0_1 = true /\ valid_float f_100_0001 = true
  /\ is_ok (RecipeRecommendation.construct
              (recommendation_payload (Given (Instance_of tikka)) (Given f_minus_0_1)
                 (Given f100) Absent (Given (lit "similar"))))
     = false
  /\ is_ok (RecipeRecommendation.construct
              (recommendation_payload (Given (Instance_of tikka)) (Given f0)
                 (Given f100) (Given (Some f_100_0001)) (Given (lit "similar"))))
     = false
  /\ is_ok (RecipeRecommendation.construct
              (recommendation_payload (Given (Instance_of tikka)) (Given f0)
                 (Given f100) (Given (Some f100)) (Given (lit "similar"))))
     = true.
Proof.
  pose proof (score_bounds_contract f_minus_0_1 (or_introl eq_refl)) as [Hin [Hs _]].
  pose proof (score_bounds_contract f_100_0001 (or_intror eq_refl)) as [_ [_ [_ Hr]]].
  split; [reflexivity|]. split; [reflexivity|].
  split; [apply Hs|]. split; [apply Hr|].
  rewrite (Hin tikka (lit "similar") f0 f100 f100); simpl; auto.
Defined.

(* ===================================================================== *)
(** ** QuickMealFilters, RecipeBasic, QuickMealResponse                   *)
(* ===================================================================== *)

(** C6: [QuickMealFilters] constructed with no field supplied succeeds
    and holds [max_prep_time = 5], [max_ingredients = 3], [max_cost = 100],
    [hostel_friendly = True], [cuisine = None], [diet_type = None]; these
    defaults lie within the declared bounds, so supplying them gives the
    same object. *)
Theorem quick_meal_filters_defaults :
  QuickMealFilters.construct QuickMealFilters.no_fields
  = Ok {| QuickMealFilters.max_prep_time := 5;
          QuickMealFilters.max_ingredients := 3;
          QuickMealFilters.max_cost := 100;
          QuickMealFilters.hostel_friendly := true;
          QuickMealFilters.cuisine := None;
          QuickMealFilters.diet_type := None |}
  /\ QuickMealFilters.construct
       {| QuickMealFilters.raw_max_prep_time := Given 5;
          QuickMealFilters.raw_max_ingredients := Given 3;
          QuickMealFilters.raw_max_cost := Given 100;
          QuickMealFilters.raw_hostel_friendly := Given true;
          QuickMealFilters.raw_cuisine := Given None;
          QuickMealFilters.raw_diet_type := Given None |}
     = QuickMealFilters.construct QuickMealFilters.no_fields.
Proof. split; reflexivity. Qed.

(** C9: [RecipeBasic] neither normalizes nor range-checks: for all strings
    [id] and [name] and all integers [prep_time], [cook_time] and
    [servings], the construction succeeds and stores each supplied value
    unchanged; an empty or blank [id] and [name] and zero or negative
    integers included. *)
Theorem recipe_basic_unvalidated (i n : str) c d ing ins (pt ct sv : Z) :
  RecipeBasic.construct
    {| RecipeBasic.raw_id := Given i;
       RecipeBasic.raw_name := Given n;
       RecipeBasic.raw_cuisine := c;
       RecipeBasic.raw_diet_type := d;
       RecipeBasic.raw_ingredients := ing;
       RecipeBasic.raw_instructions := ins;
       RecipeBasic.raw_prep_time := Given (Some pt);
       RecipeBasic.raw_cook_time := Given (Some ct);
       RecipeBasic.raw_servings := Given (Some sv) |}
  = Ok {| RecipeBasic.id := i;
          RecipeBasic.name := n;
          RecipeBasic.cuisine := value_of c;
          RecipeBasic.diet_type := value_of d;
          RecipeBasic.ingredients := value_or [] ing;
          RecipeBasic.instructions := value_of ins;
          RecipeBasic.prep_time := Some pt;
          RecipeBasic.cook_time := Some ct;
          RecipeBasic.servings := Some sv |}
  /\ RecipeBasic.construct
       {| RecipeBasic.raw_id := Given [];
          RecipeBasic.raw_name := Given (lit "  ");
          RecipeBasic.raw_cuisine := Absent;
          RecipeBasic.raw_diet_type := Absent;
          RecipeBasic.raw_ingredients := Given [lit " salt "];
          RecipeBasic.raw_instructions := Absent;
          RecipeBasic.raw_prep_time := Given (Some 0);
          RecipeBasic.raw_cook_time := Given (Some (-5));
          RecipeBasic.raw_servings := Given (Some (-1)) |}
     = Ok {| RecipeBasic.id := [];
             RecipeBasic.name := lit "  ";
             RecipeBasic.cuisine := None;
             RecipeBasic.diet_type := None;
             RecipeBasic.ingredients := [lit " salt "];
             RecipeBasic.instructions := None;
             RecipeBasic.prep_time := Some 0;
             RecipeBasic.cook_time := Some (-5);
             RecipeBasic.servings := Some (-1) |}.
Proof.
  split; [|reflexivity].
  destruct c, d, ing, ins; reflexivity.
Qed.

(** C10: [QuickMealResponse] relates [total_found] to nothing: for every
    list of [QuickMealRecipe] values and every [total_found >= 0] the
    construction succeeds and stores both, whatever the length of the
    list; with these fields supplied it fails only for a negative
    [total_found]. *)
Theorem total_found_unrelated {Any : Type} (ms : list QuickMealRecipe.t) (n : Z)
    (f : gmap str Any) (tip : supplied str) :
  QuickMealResponse.construct
    {| QuickMealResponse.raw_meals := Given (map Instance_of ms);
       QuickMealResponse.raw_total_found := Given n;
       QuickMealResponse.raw_filters_applied := Given f;
       QuickMealResponse.raw_psychological_tip := tip |}
  = if n <? 0
    then Err [LineError [Key "total_found"] (greater_than_equal (NInt 0))]
    else Ok {| QuickMealResponse.meals := ms;
               QuickMealResponse.total_found := n;
               QuickMealResponse.filters_applied := f;
               QuickMealResponse.psychological_tip :=
                 value_or QuickMealResponse.default_psychological_tip tip |}.
Proof.
  unfold QuickMealResponse.construct.
  cbn [QuickMealResponse.raw_meals QuickMealResponse.raw_total_found
       QuickMealResponse.raw_filters_applied QuickMealResponse.raw_psychological_tip].
  unfold field at 1 2 3. rewrite check_list_instances. unfold check_int_ge.
  destruct tip, (n <? 0); reflexivity.
Qed.

(* ===================================================================== *)
(** ** Further properties: what a request stores                          *)
(* ===================================================================== *)

Lemma forallb_lstrip (P : char -> bool) (x : str) :
  forallb P x = true -> forallb P (lstrip x) = true.
Proof.
  intros Hx. destruct (lstrip_split x) as [ws [Hsplit _]].
  rewrite Hsplit, forallb_app in Hx. apply andb_prop in Hx as [_ Hx]. exact Hx.
Qed.

Lemma forallb_rstrip (P : char -> bool) (x : str) :
  forallb P x = true -> forallb P (rstrip x) = true.
Proof.
  intros Hx. destruct (rstrip_split x) as [ws [Hsplit _]].
  rewrite Hsplit, forallb_app in Hx. apply andb_prop in Hx as [Hx _]. exact Hx.
Qed.

Lemma forallb_strip (P : char -> bool) (x : str) :
  forallb P x = true -> forallb P (strip x) = true.
Proof. intros Hx. apply forallb_rstrip, forallb_lstrip, Hx. Qed.

(** What [strip] returns has no whitespace at either end. *)
Lemma strip_starts_clean (x : str) : starts_clean (strip x).
Proof. apply rstrip_starts_clean, lstrip_starts_clean. Qed.

Lemma strip_ends_clean (x : str) : ends_clean (strip x).
Proof.
  unfold ends_clean, strip, rstrip. rewrite rev_involutive.
  apply lstrip_starts_clean.
Qed.

(** An accepted name is stored clean, and the stored form is accepted. *)
Lemma accepted_name_clean (v : str) :
  recipe_name_accepted v = true ->
  clean_name (strip v) /\ recipe_name_accepted (strip v) = true.
Proof.
  unfold recipe_name_accepted. intros Hacc.
  apply andb_prop in Hacc as [Hlen Hws].
  apply andb_prop in Hlen as [Henc Hlen]. apply Nat.leb_le in Hlen.
  pose proof (strip_length v) as Hs.
  assert (Ht : truthy (strip v) = true) by (rewrite strip_truthy; exact Hws).
  split.
  - split; [|split; [apply strip_starts_clean | apply strip_ends_clean]].
    destruct (strip v); [discriminate|]. simpl in *. lia.
  - apply andb_true_intro. split.
    + apply andb_true_intro. split; [|apply Nat.leb_le; lia].
      unfold encodable in *. apply forallb_strip, Henc.
    + rewrite <- strip_truthy, strip_idem. exact Ht.
Qed.

(** Entries that are already stripped and not empty are kept as they are. *)
Lemma kept_entries_fixed (l : list str) :
  Forall (fun e => strip e = e /\ truthy e = true) l -> kept_entries l = l.
Proof.
  unfold kept_entries. induction 1 as [|e l [Hs Ht] _ IH]; simpl; [reflexivity|].
  assert (Hnb : nonblank e = true).
  { unfold nonblank. rewrite <- strip_truthy, Hs. exact Ht. }
  rewrite Hnb. simpl. rewrite Hs, IH. reflexivity.
Qed.

Lemma kept_entries_idem (l : list str) : kept_entries (kept_entries l) = kept_entries l.
Proof.
  apply kept_entries_fixed.
  pose proof (kept_entries_trimmed l) as Ht.
  pose proof (kept_entries_nonempty l) as Hn.
  rewrite Forall_forall in *. intros e He. split; [apply Ht | apply Hn]; exact He.
Qed.

Section StoredRequest.
Context `{UnicodeData}.

Lemma valid_allergen_nonblank (e : str) :
  e ∈ FullAnalysisRequest.valid_allergens -> nonblank e = true.
Proof.
  intros He. apply (proj1 valid_allergens_listing_spec) in He.
  unfold valid_allergens_listing in He.
  repeat (apply elem_of_cons in He as [->|He]; [reflexivity|]).
  apply elem_of_nil in He. destruct He.
Qed.

(** A list of members of the valid set is its own normal form. *)
Lemma normalized_allergens_fixed (l : list str) :
  Forall (fun e => e ∈ FullAnalysisRequest.valid_allergens) l ->
  normalized_allergens l = l.
Proof.
  unfold normalized_allergens. induction 1 as [|e l He _ IH]; simpl; [reflexivity|].
  rewrite (valid_allergen_nonblank e He). simpl. rewrite IH.
  destruct (valid_allergen_normal e He) as [Hs Hl]. rewrite Hs, Hl. reflexivity.
Qed.

(** The field results behind a constructed request. *)
Lemma full_request_fields (p : FullAnalysisRequest.payload) (r : FullAnalysisRequest.t) :
  FullAnalysisRequest.construct p = Ok r ->
  (exists v, FullAnalysisRequest.raw_recipe_name p = Given v
             /\ recipe_name_accepted v = true
             /\ FullAnalysisRequest.recipe_name r = strip v)
  /\ (FullAnalysisRequest.ingredients r = None
      \/ exists l, FullAnalysisRequest.raw_ingredients p = Given (Some l)
                   /\ forallb (fun x => negb (nonblank x)) l = false
                   /\ FullAnalysisRequest.ingredients r = Some (kept_entries l))
  /\ (FullAnalysisRequest.allergens r = None
      \/ exists l, FullAnalysisRequest.raw_allergens p = Given (Some l)
                   /\ first_invalid (normalized_allergens l) = None
                   /\ FullAnalysisRequest.allergens r = Some (normalized_allergens l))
  /\ FullAnalysisRequest.avoid_ingredients r
     = value_of (FullAnalysisRequest.raw_avoid_ingredients p).
Proof.
  unfold FullAnalysisRequest.construct. intros Hr.
  apply fmap_ok_inv in Hr as [[n [i [a av]]] [Hr ->]].
  apply both_ok_inv in Hr as [Hn Hr].
  apply both_ok_inv in Hr as [Hi Hr].
  apply both_ok_inv in Hr as [Ha Hav]. simpl.
  split; [|split; [|split]].
  - destruct (FullAnalysisRequest.raw_recipe_name p) as [|v]; [discriminate|].
    unfold field in Hn. apply at_loc_ok_inv in Hn.
    rewrite recipe_name_full_checks in Hn.
    destruct (recipe_name_accepted v) eqn:Hacc; [|discriminate].
    injection Hn as <-. exists v. auto.
  - destruct (FullAnalysisRequest.raw_ingredients p) as [|[l|]];
      unfold field in Hi; try (injection Hi as <-; left; reflexivity).
    apply at_loc_ok_inv in Hi. rewrite validate_ingredients_list in Hi.
    destruct (forallb _ l) eqn:Hb; [discriminate|].
    injection Hi as <-. right. exists l. auto.
  - destruct (FullAnalysisRequest.raw_allergens p) as [|[l|]];
      unfold field in Ha; try (injection Ha as <-; left; reflexivity).
    apply at_loc_ok_inv in Ha. rewrite validate_allergens_list in Ha.
    destruct (first_invalid (normalized_allergens l)) eqn:Hf; [discriminate|].
    injection Ha as <-. right. exists l. auto.
  - destruct (FullAnalysisRequest.raw_avoid_ingredients p); simpl in *; congruence.
Qed.

(** X1: construction is idempotent. A constructed request, supplied again
    field by field, constructs the same request: normalization has nothing
    left to change and no check fails on a stored value. *)
Theorem full_request_round_trip (p : FullAnalysisRequest.payload)
    (r : FullAnalysisRequest.t) :
  FullAnalysisRequest.construct p = Ok r ->
  FullAnalysisRequest.construct (as_full_payload r) = Ok r.
Proof.
  intros Hr. destruct (full_request_fields p r Hr) as [Hn [Hi [Ha _]]].
  destruct r as [n i a av]. simpl in *.
  destruct Hn as [v [_ [Hacc ->]]].
  destruct (accepted_name_clean v Hacc) as [_ Hacc'].
  assert (Hi' : FullAnalysisRequest.validate_ingredients i = Ok i).
  { destruct Hi as [->|[l [_ [Hb ->]]]]; [reflexivity|].
    rewrite validate_ingredients_list, <- kept_entries_nil, kept_entries_idem,
      kept_entries_nil, Hb. reflexivity. }
  assert (Ha' : FullAnalysisRequest.validate_allergens a = Ok a).
  { destruct Ha as [->|[l [_ [Hf ->]]]]; [reflexivity|].
    rewrite validate_allergens_list.
    rewrite (normalized_allergens_fixed _ (first_invalid_none _ Hf)), Hf. reflexivity. }
  unfold as_full_payload, FullAnalysisRequest.construct. project_payload.
  cbn [FullAnalysisRequest.recipe_name FullAnalysisRequest.ingredients
       FullAnalysisRequest.allergens FullAnalysisRequest.avoid_ingredients].
  unfold field. rewrite recipe_name_full_checks, Hacc', Hi', Ha', strip_idem.
  reflexivity.
Qed.

(** X2: the name a constructed request stores is never empty, has at most
    200 code points, and neither starts nor ends with whitespace. *)
Theorem full_request_name_clean (p : FullAnalysisRequest.payload)
    (r : FullAnalysisRequest.t) :
  FullAnalysisRequest.construct p = Ok r ->
  clean_name (FullAnalysisRequest.recipe_name r).
Proof.
  intros Hr. destruct (full_request_fields p r Hr) as [[v [_ [Hacc ->]]] _].
  apply accepted_name_clean, Hacc.
Qed.

End StoredRequest.

Lemma full_request_round_trip_witness :
  @FullAnalysisRequest.construct ascii_only (as_full_payload padded_request_stored)
  = Ok padded_request_stored.
Proof.
  apply (@full_request_round_trip ascii_only padded_request).
  vm_compute. reflexivity.
Defined.

Lemma full_request_name_clean_witness :
  clean_name (lit "Chocolate Chip Cookies").
Proof.
  apply (@full_request_name_clean ascii_only padded_request padded_request_stored).
  vm_compute. reflexivity.
Defined.

(* ===================================================================== *)
(** ** Further properties: the list validators                            *)
(* ===================================================================== *)

Lemma filter_map_comm {A B} (f : A -> B) (P : B -> bool) (l : list A) :
  List.filter P (map f l) = map f (List.filter (fun x => P (f x)) l).
Proof.
  induction l as [|x l IH]; simpl; [reflexivity|].
  destruct (P (f x)); simpl; rewrite IH; reflexivity.
Qed.

(** The kept entries are a function of the stripped entries alone. *)
Lemma kept_entries_by_strip (l : list str) :
  kept_entries l = List.filter truthy (map strip l).
Proof.
  unfold kept_entries. rewrite filter_map_comm. f_equal.
  apply filter_ext. intros x. symmetry. apply strip_truthy.
Qed.

Lemma validate_ingredients_by_kept (l : list str) :
  FullAnalysisRequest.validate_ingredients (Some l)
  = if (length (kept_entries l) =? 0)%nat
    then raise_ValueError ingredients_empty_message
    else Ok (Some (kept_entries l)).
Proof. rewrite validate_ingredients_list, kept_entries_nil. reflexivity. Qed.

Lemma isspace_ascii_lower (c : char) : isspace (ascii_lower c) = isspace c.
Proof.
  unfold ascii_lower.
  destruct (N.leb_spec 65 c) as [Hlo|Hlo]; [|reflexivity].
  destruct (N.leb_spec c 90) as [Hhi|Hhi]; [|reflexivity]. simpl.
  assert (Hclean : forall d : char, (65 <= d <= 122)%N -> isspace d = false).
  { intros d Hd. unfold isspace.
    repeat (apply orb_false_iff; split);
      try (apply N.eqb_neq; lia);
      apply andb_false_iff;
      first [left; apply N.leb_gt; lia | right; apply N.leb_gt; lia]. }
  rewrite !Hclean by lia. reflexivity.
Qed.

Section MapStrip.
Variable f : char -> char.
Hypothesis f_space : forall c, isspace (f c) = isspace c.

Lemma lstrip_map (x : str) : lstrip (map f x) = map f (lstrip x).
Proof.
  induction x as [|c x IH]; simpl; [reflexivity|].
  rewrite f_space. destruct (isspace c); [exact IH | reflexivity].
Qed.

Lemma strip_map (x : str) : strip (map f x) = map f (strip x).
Proof.
  unfold strip, rstrip.
  rewrite lstrip_map, <- map_rev, lstrip_map, map_rev. reflexivity.
Qed.

Lemma nonblank_map (x : str) : nonblank (map f x) = nonblank x.
Proof.
  unfold nonblank. f_equal.
  induction x as [|c x IH]; simpl; [reflexivity|]. rewrite f_space, IH. reflexivity.
Qed.

End MapStrip.

Section ListValidators.
Context `{UnicodeData}.

Lemma lower_ascii (x : str) : all_ascii x = true -> lower x = map ascii_lower x.
Proof. unfold all_ascii, lower. intros ->. reflexivity. Qed.

(** The normal form of ASCII entries: lower each code point, then keep
    and strip. *)
Lemma normalized_allergens_ascii (l : list str) :
  forallb all_ascii l = true ->
  normalized_allergens l = kept_entries (map (map ascii_lower) l).
Proof.
  unfold normalized_allergens, kept_entries.
  induction l as [|a l IH]; simpl; [reflexivity|].
  intros Hl. apply andb_prop in Hl as [Ha Hl].
  rewrite (nonblank_map _ isspace_ascii_lower).
  destruct (nonblank a); simpl; rewrite (IH Hl); [|reflexivity].
  rewrite (strip_map _ isspace_ascii_lower), lower_ascii; [reflexivity|].
  apply forallb_strip, Ha.
Qed.

Lemma normalized_allergens_by_strip (l : list str) :
  normalized_allergens l = map lower (List.filter truthy (map strip l)).
Proof.
  rewrite <- kept_entries_by_strip. unfold normalized_allergens, kept_entries.
  rewrite map_map. reflexivity.
Qed.

(** X3: both list validators see an entry only through its stripped form:
    two lists whose entries agree after stripping, whatever whitespace
    surrounds them, are accepted or rejected alike and store the same. *)
Theorem list_validators_ignore_padding (l l' : list str) :
  map strip l = map strip l' ->
  FullAnalysisRequest.validate_ingredients (Some l)
  = FullAnalysisRequest.validate_ingredients (Some l')
  /\ FullAnalysisRequest.validate_allergens (Some l)
     = FullAnalysisRequest.validate_allergens (Some l').
Proof.
  intros Hs. split.
  - rewrite !validate_ingredients_by_kept, !kept_entries_by_strip, Hs. reflexivity.
  - rewrite !validate_allergens_list, !normalized_allergens_by_strip, Hs. reflexivity.
Qed.

(** X4: on ASCII entries the allergen validator ignores letter case: two
    lists that agree once their code points are lowered are accepted or
    rejected alike and store the same. *)
Theorem allergens_ignore_case (l l' : list str) :
  forallb all_ascii l = true -> forallb all_ascii l' = true ->
  map (map ascii_lower) l = map (map ascii_lower) l' ->
  FullAnalysisRequest.validate_allergens (Some l)
  = FullAnalysisRequest.validate_allergens (Some l').
Proof.
  intros Hl Hl' Hlow.
  rewrite !validate_allergens_list, !normalized_allergens_ascii, Hlow by assumption.
  reflexivity.
Qed.

Lemma normalized_allergens_app (l1 l2 : list str) :
  normalized_allergens (l1 ++ l2) = normalized_allergens l1 ++ normalized_allergens l2.
Proof. unfold normalized_allergens. rewrite List.filter_app, map_app. reflexivity. Qed.

Lemma kept_entries_app (l1 l2 : list str) :
  kept_entries (l1 ++ l2) = kept_entries l1 ++ kept_entries l2.
Proof. unfold kept_entries. rewrite List.filter_app, map_app. reflexivity. Qed.

Lemma first_invalid_app (l1 l2 : list str) :
  first_invalid (l1 ++ l2)
  = match first_invalid l1 with Some bad => Some bad | None => first_invalid l2 end.
Proof.
  unfold first_invalid. induction l1 as [|a l1 IH]; simpl; [reflexivity|].
  destruct (negb _); [reflexivity | exact IH].
Qed.

(** X5: the allergen validator over a concatenation: the parts are
    validated in order, the error of the first part that fails is the
    error of the whole, and when both pass the stored list is the
    concatenation of what each stores. Hence only the first invalid entry
    of a list is ever reported, and order and duplicates are kept. *)
Theorem allergens_concatenation (l1 l2 : list str) :
  FullAnalysisRequest.validate_allergens (Some (l1 ++ l2))
  = (a1 ← FullAnalysisRequest.validate_allergens (Some l1);
     a2 ← FullAnalysisRequest.validate_allergens (Some l2);
     Ok (Some (entries a1 ++ entries a2))).
Proof.
  rewrite !validate_allergens_list, normalized_allergens_app, first_invalid_app.
  destruct (first_invalid (normalized_allergens l1)); [reflexivity|]. simpl.
  destruct (first_invalid (normalized_allergens l2)); reflexivity.
Qed.

(** X6: the ingredients validator over a concatenation: it fails exactly
    when both parts hold blank entries only, and otherwise stores what the
    first part keeps followed by what the second keeps. *)
Theorem ingredients_concatenation (l1 l2 : list str) :
  FullAnalysisRequest.validate_ingredients (Some (l1 ++ l2))
  = if forallb (fun x => negb (nonblank x)) l1 && forallb (fun x => negb (nonblank x)) l2
    then raise_ValueError ingredients_empty_message
    else Ok (Some (kept_entries l1 ++ kept_entries l2)).
Proof.
  rewrite validate_ingredients_list, forallb_app, kept_entries_app. reflexivity.
Qed.







End ListValidators.

Lemma list_validators_ignore_padding_witness :
  FullAnalysisRequest.validate_ingredients (Some [lit " rice "; lit "dal"])
  = FullAnalysisRequest.validate_ingredients (Some [lit "rice"; lit "  dal "])
  /\ @FullAnalysisRequest.validate_allergens ascii_only (Some [lit " rice "; lit "dal"])
     = @FullAnalysisRequest.validate_allergens ascii_only (Some [lit "rice"; lit "  dal "]).
Proof.
  apply (@list_validators_ignore_padding ascii_only). reflexivity.
Defined.

Lemma allergens_ignore_case_witness :
  @FullAnalysisRequest.validate_allergens ascii_only (Some [lit "MILK"; lit "Tree_Nuts"])
  = @FullAnalysisRequest.validate_allergens ascii_only (Some [lit "milk"; lit "tree_nuts"]).
Proof.
  apply (@allergens_ignore_case ascii_only); reflexivity.
Defined.

(* ===================================================================== *)
(** ** Further properties: RecipeSearchFilters                            *)
(* ===================================================================== *)

(** The [max_calories] field in full: its value is stored as supplied, or
    one error is reported, the bound before the range. *)
Lemma max_calories_result (lo hi : supplied (option Z)) (data : gmap string pyvalue) :
  data !! "min_calories"%string
  = (if int_bound_ok lo then Some (py_option PyInt (value_of lo)) else None) ->
  field "max_calories" (Some None)
    (fun v => v ← nullable (check_int_ge 0) v;
              RecipeSearchFilters.validate_calorie_range v data) hi
  = if int_bound_ok hi
    then if negb (int_bound_ok lo) || calories_ordered lo hi
         then Ok (value_of hi)
         else Err [LineError [Key "max_calories"] (value_error calories_message)]
    else Err [LineError [Key "max_calories"] (greater_than_equal (NInt 0))].
Proof.
  intros Hdata. unfold calories_ordered, int_bound_ok in *.
  destruct hi as [|[b|]]; simpl.
  - destruct (value_of lo) as [a|]; simpl; [destruct (0 <=? a)|]; reflexivity.
  - unfold check_int_ge. rewrite (Z.leb_antisym b 0).
    destruct (b <? 0); simpl; [reflexivity|].
    unfold RecipeSearchFilters.validate_calorie_range. rewrite Hdata.
    destruct (value_of lo) as [a|]; simpl.
    + destruct (0 <=? a); simpl; [|reflexivity].
      rewrite Z.geb_leb, (Z.leb_antisym b a). destruct (b <? a); reflexivity.
    + reflexivity.
  - destruct (value_of lo) as [a|]; simpl; [destruct (0 <=? a)|]; reflexivity.
Qed.

Lemma max_protein_result (lo hi : supplied (option float)) (data : gmap string pyvalue) :
  data !! "min_protein"%string
  = (if float_bound_ok lo then Some (py_option PyFloat (value_of lo)) else None) ->
  field "max_protein" (Some None)
    (fun v => v ← nullable (check_float_ge f0) v;
              RecipeSearchFilters.validate_protein_range v data) hi
  = if float_bound_ok hi
    then if negb (float_bound_ok lo) || protein_ordered lo hi
         then Ok (value_of hi)
         else Err [LineError [Key "max_protein"] (value_error protein_message)]
    else Err [LineError [Key "max_protein"] (greater_than_equal (NFloat f0))].
Proof.
  intros Hdata. unfold protein_ordered, float_bound_ok in *.
  destruct hi as [|[y|]]; simpl.
  - destruct (value_of lo) as [x|]; simpl; [destruct (float_ge x f0)|]; reflexivity.
  - unfold check_float_ge. destruct (float_ge y f0) eqn:Hy; simpl; [|reflexivity].
    unfold RecipeSearchFilters.validate_protein_range. rewrite Hdata.
    destruct (value_of lo) as [x|]; simpl.
    + destruct (float_ge x f0) eqn:Hx; simpl; [|reflexivity].
      rewrite <- (float_not_lt_ge x y f0 Hx Hy).
      destruct (float_lt y x); reflexivity.
    + reflexivity.
  - destruct (value_of lo) as [x|]; simpl; [destruct (float_ge x f0)|]; reflexivity.
Qed.

Lemma optional_text_field (name : string) (v : supplied (option str)) :
  field name (Some None) Ok v = Ok (value_of v).
Proof. destruct v; reflexivity. Qed.

(** The pass over a payload, with every field result made explicit. *)
Lemma search_filters_pass c d lo hi plo phi :
  RecipeSearchFilters.construct (search_payload c d lo hi plo phi)
  = (fun '(c, (d, (a, (b, (x, y))))) => RecipeSearchFilters.Build_t c d a b x y)
      <$> both (Ok (value_of c)) (both (Ok (value_of d))
         (both (if int_bound_ok lo then Ok (value_of lo)
                else Err [LineError [Key "min_calories"] (greater_than_equal (NInt 0))])
         (both (if int_bound_ok hi
                then if negb (int_bound_ok lo) || calories_ordered lo hi
                     then Ok (value_of hi)
                     else Err [LineError [Key "max_calories"] (value_error calories_message)]
                else Err [LineError [Key "max_calories"] (greater_than_equal (NInt 0))])
         (both (if float_bound_ok plo then Ok (value_of plo)
                else Err [LineError [Key "min_protein"] (greater_than_equal (NFloat f0))])
               (if float_bound_ok phi
                then if negb (float_bound_ok plo) || protein_ordered plo phi
                     then Ok (value_of phi)
                     else Err [LineError [Key "max_protein"] (value_error protein_message)]
                else Err [LineError [Key "max_protein"] (greater_than_equal (NFloat f0))]))))).
Proof.
  unfold RecipeSearchFilters.construct.
  cbn [RecipeSearchFilters.raw_cuisine RecipeSearchFilters.raw_diet_type
       RecipeSearchFilters.raw_min_calories RecipeSearchFilters.raw_max_calories
       RecipeSearchFilters.raw_min_protein RecipeSearchFilters.raw_max_protein].
  cbv zeta.
  rewrite (max_calories_result lo), (max_protein_result plo).
  - rewrite !optional_text_field, !optional_int_field, !optional_float_field.
    reflexivity.
  - rewrite store_lookup_same, optional_float_field.
    destruct (float_bound_ok plo); [reflexivity|].
    rewrite !store_lookup_other by discriminate. apply lookup_empty.
  - rewrite store_lookup_same, optional_int_field.
    destruct (int_bound_ok lo); [reflexivity|].
    rewrite !store_lookup_other by discriminate. apply lookup_empty.
Qed.

(** X9: a [RecipeSearchFilters] is constructed exactly from the accepted
    payloads, and it stores every field as supplied (an absent field as
    [None]): nothing is stripped, lowered or rounded. *)
Theorem search_filters_stored c d lo hi plo phi (r : RecipeSearchFilters.t) :
  RecipeSearchFilters.construct (search_payload c d lo hi plo phi) = Ok r
  <-> search_filters_accepted lo hi plo phi = true
      /\ r = {| RecipeSearchFilters.cuisine := value_of c;
                RecipeSearchFilters.diet_type := value_of d;
                RecipeSearchFilters.min_calories := value_of lo;
                RecipeSearchFilters.max_calories := value_of hi;
                RecipeSearchFilters.min_protein := value_of plo;
                RecipeSearchFilters.max_protein := value_of phi |}.
Proof.
  rewrite search_filters_pass. unfold search_filters_accepted.
  destruct (int_bound_ok lo), (int_bound_ok hi), (calories_ordered lo hi),
    (float_bound_ok plo), (float_bound_ok phi), (protein_ordered plo phi); simpl;
    split; try discriminate; try (intros [Hf _]; discriminate).
  - intros [= <-]. split; reflexivity.
  - intros [_ ->]. reflexivity.
Qed.

(** X10: the report of a rejected payload: for each pair, a bound error
    under the name of each side below zero, and the range error under the
    name of the max side when both sides passed their bound and max is
    below min; [cuisine] and [diet_type] are never reported. *)
Theorem search_filters_report c d lo hi plo phi :
  errors_of (RecipeSearchFilters.construct (search_payload c d lo hi plo phi))
  = pair_errors "min_calories" "max_calories" (NInt 0) calories_message
      (int_bound_ok lo) (int_bound_ok hi) (calories_ordered lo hi)
    ++ pair_errors "min_protein" "max_protein" (NFloat f0) protein_message
         (float_bound_ok plo) (float_bound_ok phi) (protein_ordered plo phi).
Proof.
  rewrite search_filters_pass, errors_of_fmap, !errors_of_both. unfold pair_errors.
  destruct (int_bound_ok lo), (int_bound_ok hi), (calories_ordered lo hi),
    (float_bound_ok plo), (float_bound_ok phi), (protein_ordered plo phi); reflexivity.
Qed.

(** X11: the range checks are not strict, whatever their messages say:
    equal bounds are accepted, and a max strictly below a non-negative
    min is rejected with the one error
    ["max_calories must be greater than min_calories"] under
    [max_calories]. *)
Theorem calorie_range_not_strict c d (a b : Z) :
  0 <= b < a ->
  RecipeSearchFilters.construct
    (search_payload c d (Given (Some a)) (Given (Some a)) Absent Absent)
  = Ok {| RecipeSearchFilters.cuisine := value_of c;
          RecipeSearchFilters.diet_type := value_of d;
          RecipeSearchFilters.min_calories := Some a;
          RecipeSearchFilters.max_calories := Some a;
          RecipeSearchFilters.min_protein := None;
          RecipeSearchFilters.max_protein := None |}
  /\ RecipeSearchFilters.construct
       (search_payload c d (Given (Some a)) (Given (Some b)) Absent Absent)
     = Err [LineError [Key "max_calories"] (value_error calories_message)].
Proof.
  intros [Hb Hab]. rewrite !search_filters_pass.
  unfold int_bound_ok, calories_ordered. simpl value_of. cbv iota.
  assert (Ha0 : (0 <=? a) = true) by (apply Z.leb_le; lia).
  assert (Hb0 : (0 <=? b) = true) by (apply Z.leb_le; lia).
  assert (Haa : (a >=? a) = true) by (apply Z.geb_le; lia).
  assert (Hba : (b >=? a) = false).
  { rewrite Z.geb_leb. apply Z.leb_gt. lia. }
  rewrite Ha0, Hb0, Haa, Hba. split; reflexivity.
Qed.

Lemma calorie_range_not_strict_witness :
  is_ok (RecipeSearchFilters.construct
           (search_payload Absent Absent (Given (Some 300)) (Given (Some 300)) Absent Absent))
  = true
  /\ RecipeSearchFilters.construct
       (search_payload Absent Absent (Given (Some 300)) (Given (Some 299)) Absent Absent)
     = Err [LineError [Key "max_calories"] (value_error calories_message)].
Proof.
  destruct (calorie_range_not_strict Absent Absent 300 299 ltac:(lia)) as [H1 H2].
  split; [rewrite H1; reflexivity | exact H2].
Defined.

(* ===================================================================== *)
(** ** Further properties: the remaining models                           *)
(* ===================================================================== *)

(** X8: a constructed [RecipeAnalysisRequest] stores a name that is not
    empty, has at most 200 code points and no whitespace at either end;
    supplied again, the stored name constructs the same request. *)
Theorem analysis_request_stored (p : RecipeAnalysisRequest.payload)
    (r : RecipeAnalysisRequest.t) :
  RecipeAnalysisRequest.construct p = Ok r ->
  clean_name (RecipeAnalysisRequest.recipe_name r)
  /\ RecipeAnalysisRequest.construct (as_analysis_payload r) = Ok r.
Proof.
  destruct p as [[|v]]; unfold RecipeAnalysisRequest.construct; simpl; [discriminate|].
  unfold field. rewrite recipe_name_checks.
  destruct (recipe_name_accepted v) eqn:Hacc; simpl; [|discriminate].
  intros [= <-]. destruct (accepted_name_clean v Hacc) as [Hclean Hacc'].
  split; [exact Hclean|].
  unfold as_analysis_payload. simpl.
  rewrite recipe_name_checks, Hacc', strip_idem. reflexivity.
Qed.

Lemma analysis_request_stored_witness :
  clean_name (lit "Chicken Curry")
  /\ RecipeAnalysisRequest.construct
       {| RecipeAnalysisRequest.raw_recipe_name := Given (lit "Chicken Curry") |}
     = Ok {| RecipeAnalysisRequest.recipe_name := lit "Chicken Curry" |}.
Proof.
  apply (analysis_request_stored
           {| RecipeAnalysisRequest.raw_recipe_name := Given (lit "  Chicken Curry ") |}
           {| RecipeAnalysisRequest.recipe_name := lit "Chicken Curry" |}).
  vm_compute. reflexivity.
Defined.

(** A bounded integer field with a default inside its bounds. *)
Lemma bounded_int_field (name : string) (lo hi dflt : Z) (v : supplied Z) :
  in_range lo hi dflt = true ->
  field name (Some dflt) (check_int_range lo hi) v
  = if in_range lo hi (value_or dflt v) then Ok (value_or dflt v)
    else Err [LineError [Key name] (range_rejection lo hi (value_or dflt v))].
Proof.
  intros Hd. destruct v as [|x]; simpl; [rewrite Hd; reflexivity|].
  unfold check_int_range, check_int_le, check_int_ge, in_range, range_rejection.
  rewrite (Z.leb_antisym hi x), (Z.leb_antisym x lo).
  destruct (hi <? x); simpl; [rewrite andb_false_r; reflexivity|].
  destruct (x <? lo); reflexivity.
Qed.

(** X12: [QuickMealFilters] is constructed exactly when each supplied
    number lies within its bounds (1..30, 1..10, 10..500); it stores the
    supplied values and the defaults 5, 3, 100, [True] for the absent
    ones, and each number out of range adds exactly one error. *)
Theorem quick_meal_filters_accepts a b c h cu d :
  let p := {| QuickMealFilters.raw_max_prep_time := a;
              QuickMealFilters.raw_max_ingredients := b;
              QuickMealFilters.raw_max_cost := c;
              QuickMealFilters.raw_hostel_friendly := h;
              QuickMealFilters.raw_cuisine := cu;
              QuickMealFilters.raw_diet_type := d |} in
  let checks := [in_range 1 30 (value_or 5 a); in_range 1 10 (value_or 3 b);
                 in_range 10 500 (value_or 100 c)] in
  (forall r, QuickMealFilters.construct p = Ok r
             <-> forallb id checks = true
                 /\ r = {| QuickMealFilters.max_prep_time := value_or 5 a;
                           QuickMealFilters.max_ingredients := value_or 3 b;
                           QuickMealFilters.max_cost := value_or 100 c;
                           QuickMealFilters.hostel_friendly := value_or true h;
                           QuickMealFilters.cuisine := value_of cu;
                           QuickMealFilters.diet_type := value_of d |})
  /\ length (errors_of (QuickMealFilters.construct p)) = failures checks.
Proof.
  cbv zeta. unfold QuickMealFilters.construct.
  cbn [QuickMealFilters.raw_max_prep_time QuickMealFilters.raw_max_ingredients
       QuickMealFilters.raw_max_cost QuickMealFilters.raw_hostel_friendly
       QuickMealFilters.raw_cuisine QuickMealFilters.raw_diet_type].
  rewrite !bounded_int_field, !optional_text_field by reflexivity.
  assert (Hh : field "hostel_friendly" (Some true) Ok h = Ok (value_or true h))
    by (destruct h; reflexivity).
  rewrite Hh.
  destruct (in_range 1 30 (value_or 5 a)), (in_range 1 10 (value_or 3 b)),
    (in_range 10 500 (value_or 100 c)); simpl; split; try reflexivity;
    intros r; split; try discriminate; try (intros [Hf _]; discriminate).
  - intros [= <-]. split; reflexivity.
  - intros [_ ->]. reflexivity.
Qed.

(** X14: [RecipeBasic] fails only for a missing [id] or [name], and then
    reports each of the two that is missing; with both supplied it stores
    every field as supplied, absent optional fields as [None] and an
    absent [ingredients] as the empty list. *)
Theorem recipe_basic_required_fields (p : RecipeBasic.payload) :
  RecipeBasic.construct p
  = match RecipeBasic.raw_id p, RecipeBasic.raw_name p with
    | Given i, Given n =>
        Ok {| RecipeBasic.id := i;
              RecipeBasic.name := n;
              RecipeBasic.cuisine := value_of (RecipeBasic.raw_cuisine p);
              RecipeBasic.diet_type := value_of (RecipeBasic.raw_diet_type p);
              RecipeBasic.ingredients := value_or [] (RecipeBasic.raw_ingredients p);
              RecipeBasic.instructions := value_of (RecipeBasic.raw_instructions p);
              RecipeBasic.prep_time := value_of (RecipeBasic.raw_prep_time p);
              RecipeBasic.cook_time := value_of (RecipeBasic.raw_cook_time p);
              RecipeBasic.servings := value_of (RecipeBasic.raw_servings p) |}
    | i, n => Err (missing_error "id" i ++ missing_error "name" n)
    end.
Proof.
  destruct p as [i n c d ing ins pt ct sv]. unfold RecipeBasic.construct. simpl.
  destruct i, n, c, d, ing, ins, pt, ct, sv; reflexivity.
Qed.

Lemma is_ok_at_loc {A} (k : loc_item) (r : result A) : is_ok (at_loc k r) = is_ok r.
Proof. destruct r; reflexivity. Qed.

Lemma errors_of_at_loc {A} (k : loc_item) (r : result A) :
  errors_of (at_loc k r) = relocate [k] (errors_of r).
Proof. destruct r; reflexivity. Qed.

Lemma relocate_relocate (p q : list loc_item) (es : list line_error) :
  relocate p (relocate q es) = relocate (p ++ q) es.
Proof.
  unfold relocate. rewrite map_map. apply map_ext. intros e. simpl.
  rewrite app_assoc. reflexivity.
Qed.

Lemma relocate_app (p : list loc_item) (es es' : list line_error) :
  relocate p (es ++ es') = relocate p es ++ relocate p es'.
Proof. apply map_app. Qed.

Section ListField.
Context {R A : Type} (item : R -> result A).

Lemma check_list_from_ok (i : nat) (xs : list R) :
  is_ok (check_list_from item i xs) = forallb (fun x => is_ok (item x)) xs.
Proof.
  revert i. induction xs as [|x xs IH]; intros i; simpl; [reflexivity|].
  rewrite is_ok_fmap, is_ok_both, is_ok_at_loc, IH. reflexivity.
Qed.

(** The items of a validated list are the validated items, one for one
    and in order. *)
Lemma check_list_from_items (i : nat) (xs : list R) (ys : list A) :
  check_list_from item i xs = Ok ys -> Forall2 (fun x y => item x = Ok y) xs ys.
Proof.
  revert i ys. induction xs as [|x xs IH]; intros i ys; simpl.
  - intros [= <-]. constructor.
  - intros Hys. apply fmap_ok_inv in Hys as [[y ys'] [Hb ->]].
    apply both_ok_inv in Hb as [Hy Hys']. apply at_loc_ok_inv in Hy.
    constructor; [exact Hy | exact (IH _ _ Hys')].
Qed.

(** The report of a list: the reports of its items, in order, each under
    the index of the item. *)
Lemma check_list_from_errors (i : nat) (xs : list R) :
  errors_of (check_list_from item i xs)
  = mjoin (imap (fun j x => relocate [Index (i + j)] (errors_of (item x))) xs).
Proof.
  revert i. induction xs as [|x xs IH]; intros i; simpl; [reflexivity|].
  rewrite errors_of_fmap, errors_of_both, errors_of_at_loc, IH, Nat.add_0_r.
  f_equal. f_equal. apply imap_ext. intros j y _. simpl.
  rewrite Nat.add_succ_r. reflexivity.
Qed.

End ListField.

Lemma int_ge_field (name : string) (ge : Z) (v : Z) :
  field name required (check_int_ge ge) (Given v)
  = if ge <=? v then Ok v else Err [LineError [Key name] (greater_than_equal (NInt ge))].
Proof.
  unfold field, check_int_ge. rewrite (Z.leb_antisym v ge).
  destruct (v <? ge); reflexivity.
Qed.

(** X13: [QuickMealRecipe] checks [ingredient_count >= 1] and
    [estimated_cost >= 0] and nothing else: given a recipe, it is
    constructed exactly when both hold, whatever the number of ingredients
    of the recipe, and each of the two that fails adds its own error. *)
Theorem quick_meal_recipe_accepts (rc : RecipeBasic.t) (n k : Z) e tips :
  QuickMealRecipe.construct
    {| QuickMealRecipe.raw_recipe := Given (Instance_of rc);
       QuickMealRecipe.raw_ingredient_count := Given n;
       QuickMealRecipe.raw_estimated_cost := Given k;
       QuickMealRecipe.raw_equipment_needed := e;
       QuickMealRecipe.raw_practical_tips := tips |}
  = if (1 <=? n) && (0 <=? k)
    then Ok {| QuickMealRecipe.recipe := rc;
               QuickMealRecipe.ingredient_count := n;
               QuickMealRecipe.estimated_cost := k;
               QuickMealRecipe.equipment_needed := value_or [] e;
               QuickMealRecipe.practical_tips := value_of tips |}
    else Err ((if 1 <=? n then []
               else [LineError [Key "ingredient_count"] (greater_than_equal (NInt 1))])
              ++ (if 0 <=? k then []
                  else [LineError [Key "estimated_cost"] (greater_than_equal (NInt 0))])).
Proof.
  unfold QuickMealRecipe.construct.
  cbn [QuickMealRecipe.raw_recipe QuickMealRecipe.raw_ingredient_count
       QuickMealRecipe.raw_estimated_cost QuickMealRecipe.raw_equipment_needed
       QuickMealRecipe.raw_practical_tips].
  rewrite !int_ge_field.
  destruct e, tips, (1 <=? n), (0 <=? k); reflexivity.
Qed.

Lemma relocate_mjoin_imap {A} (p : list loc_item) (g : nat -> A -> list line_error)
    (xs : list A) :
  relocate p (mjoin (imap g xs)) = mjoin (imap (fun j x => relocate p (g j x)) xs).
Proof.
  revert g. induction xs as [|x xs IH]; intros g; simpl; [reflexivity|].
  rewrite relocate_app, IH. reflexivity.
Qed.

Section Response.
Context {Any : Type}.

Lemma response_pass (ms : list (model_input QuickMealRecipe.payload QuickMealRecipe.t))
    (n : Z) (f : gmap str Any) (tip : supplied str) :
  QuickMealResponse.construct (response_payload (Given ms) (Given n) (Given f) tip)
  = (fun '(m, (n, (f, tip))) => QuickMealResponse.Build_t m n f tip)
      <$> both (at_loc (Key "meals")
                  (check_list (check_model QuickMealRecipe.construct) ms))
         (both (if 0 <=? n then Ok n
                else Err [LineError [Key "total_found"] (greater_than_equal (NInt 0))])
         (both (Ok f)
               (Ok (value_or QuickMealResponse.default_psychological_tip tip)))).
Proof.
  unfold QuickMealResponse.construct.
  cbn [QuickMealResponse.raw_meals QuickMealResponse.raw_total_found
       QuickMealResponse.raw_filters_applied QuickMealResponse.raw_psychological_tip].
  rewrite int_ge_field. destruct tip; reflexivity.
Qed.

(** X15: a response whose meals are given as mappings or instances is
    constructed exactly when every meal constructs and [total_found] is
    not negative; it then stores one meal per supplied meal, in order,
    each the construction of its input. *)
Theorem response_accepts (ms : list (model_input QuickMealRecipe.payload QuickMealRecipe.t))
    (n : Z) (f : gmap str Any) (tip : supplied str) :
  is_ok (QuickMealResponse.construct (response_payload (Given ms) (Given n) (Given f) tip))
  = forallb meal_input_ok ms && (0 <=? n)
  /\ forall r,
       QuickMealResponse.construct (response_payload (Given ms) (Given n) (Given f) tip)
       = Ok r ->
       Forall2 (fun m x => check_model QuickMealRecipe.construct m = Ok x)
               ms (QuickMealResponse.meals r)
       /\ length (QuickMealResponse.meals r) = length ms
       /\ QuickMealResponse.total_found r = n
       /\ QuickMealResponse.filters_applied r = f.
Proof.
  rewrite response_pass. split.
  - rewrite is_ok_fmap, !is_ok_both, is_ok_at_loc. unfold check_list.
    rewrite check_list_from_ok. unfold meal_input_ok.
    destruct (0 <=? n); simpl; rewrite ?andb_true_r; reflexivity.
  - intros r Hr. apply fmap_ok_inv in Hr as [[m [n' [f' tip']]] [Hb ->]].
    apply both_ok_inv in Hb as [Hm Hb].
    apply both_ok_inv in Hb as [Hn Hb].
    apply both_ok_inv in Hb as [Hf _].
    apply at_loc_ok_inv, check_list_from_items in Hm. simpl.
    split; [exact Hm|]. split; [symmetry; exact (Forall2_length _ _ _ Hm)|].
    destruct (0 <=? n); [|discriminate]. split; congruence.
Qed.

(** X16: the report of a response: the errors of each meal, in the order
    of the list, each under [meals] and the index of the meal, followed by
    the error of a negative [total_found]. *)
Theorem response_report (ms : list (model_input QuickMealRecipe.payload QuickMealRecipe.t))
    (n : Z) (f : gmap str Any) (tip : supplied str) :
  errors_of (QuickMealResponse.construct
               (response_payload (Given ms) (Given n) (Given f) tip))
  = mjoin (imap (fun j m => relocate [Key "meals"; Index j]
                              (errors_of (check_model QuickMealRecipe.construct m))) ms)
    ++ (if 0 <=? n then []
        else [LineError [Key "total_found"] (greater_than_equal (NInt 0))]).
Proof.
  rewrite response_pass, errors_of_fmap, !errors_of_both, errors_of_at_loc.
  unfold check_list. rewrite check_list_from_errors, relocate_mjoin_imap.
  simpl errors_of at 3 4. rewrite !app_nil_r. f_equal.
  - f_equal. apply imap_ext. intros j m _. simpl. apply relocate_relocate.
  - destruct (0 <=? n); reflexivity.
Qed.

End Response.

Lemma score_check (v : float) :
  check_float_range f0 f100 v
  = if score_ok v then Ok v else Err [LineError [] (score_rejection v)].
Proof.
  unfold check_float_range, check_float_le, check_float_ge, score_ok, score_rejection.
  destruct (float_le v f100); simpl; [|reflexivity].
  destruct (float_ge v f0); reflexivity.
Qed.

Lemma required_field_ok {R A} (name : string) (validator : R -> result A)
    (v : supplied R) :
  is_ok (field name required validator v)
  = supplied_ok (fun x => is_ok (validator x)) v.
Proof. destruct v as [|x]; simpl; [reflexivity | apply is_ok_at_loc]. Qed.

Lemma required_field_inv {R A} (name : string) (validator : R -> result A)
    (v : supplied R) (y : A) :
  field name required validator v = Ok y -> exists x, v = Given x /\ validator x = Ok y.
Proof.
  destruct v as [|x]; simpl; [discriminate|].
  intros Hy. apply at_loc_ok_inv in Hy. eauto.
Qed.

(** X17: a [RecipeRecommendation] is constructed exactly when a recipe is
    supplied and constructs, both required scores are supplied within
    0..100, a supplied [relevance_score] is [None] or within 0..100, and a
    reason is supplied. It stores the scores and the reason as supplied:
    no rounding or clamping, and no check that relates the three scores. *)
Theorem recommendation_accepts (p : RecipeRecommendation.payload) :
  is_ok (RecipeRecommendation.construct p)
  = supplied_ok recipe_input_ok (RecipeRecommendation.raw_recipe p)
    && supplied_ok score_ok (RecipeRecommendation.raw_similarity_score p)
    && supplied_ok score_ok (RecipeRecommendation.raw_health_score p)
    && match value_of (RecipeRecommendation.raw_relevance_score p) with
       | Some v => score_ok v
       | None => true
       end
    && is_given (RecipeRecommendation.raw_reason p)
  /\ forall r,
       RecipeRecommendation.construct p = Ok r ->
       (exists m, RecipeRecommendation.raw_recipe p = Given m
                  /\ check_model RecipeBasic.construct m
                     = Ok (RecipeRecommendation.recipe r))
       /\ RecipeRecommendation.raw_similarity_score p
          = Given (RecipeRecommendation.similarity_score r)
       /\ RecipeRecommendation.raw_health_score p
          = Given (RecipeRecommendation.health_score r)
       /\ RecipeRecommendation.relevance_score r
          = value_of (RecipeRecommendation.raw_relevance_score p)
       /\ RecipeRecommendation.raw_reason p = Given (RecipeRecommendation.reason r).
Proof.
  unfold RecipeRecommendation.construct. split.
  - rewrite is_ok_fmap, !is_ok_both, !required_field_ok.
    assert (Hrel : is_ok (field "relevance_score" (Some None)
                            (nullable (check_float_range f0 f100))
                            (RecipeRecommendation.raw_relevance_score p))
                   = match value_of (RecipeRecommendation.raw_relevance_score p) with
                     | Some v => score_ok v
                     | None => true
                     end).
    { destruct (RecipeRecommendation.raw_relevance_score p) as [|[v|]];
        try reflexivity.
      unfold field, nullable. simpl value_of. rewrite score_check.
      destruct (score_ok v); reflexivity. }
    rewrite Hrel.
    assert (Hscore : forall v : supplied float,
              supplied_ok (fun x => is_ok (check_float_range f0 f100 x)) v
              = supplied_ok score_ok v).
    { intros [|v]; simpl; [reflexivity|]. rewrite score_check.
      destruct (score_ok v); reflexivity. }
    rewrite !Hscore.
    assert (Hwhy : supplied_ok (fun x : str => is_ok (Ok x))
                     (RecipeRecommendation.raw_reason p)
                   = is_given (RecipeRecommendation.raw_reason p))
      by (destruct (RecipeRecommendation.raw_reason p); reflexivity).
    rewrite Hwhy. unfold recipe_input_ok. rewrite !andb_assoc. reflexivity.
  - intros r Hr. apply fmap_ok_inv in Hr as [[rc [s [h [rel why]]]] [Hb ->]].
    apply both_ok_inv in Hb as [Hrc Hb].
    apply both_ok_inv in Hb as [Hs Hb].
    apply both_ok_inv in Hb as [Hh Hb].
    apply both_ok_inv in Hb as [Hrel Hwhy]. simpl.
    apply required_field_inv in Hrc as [m [Hm Hrc]].
    apply required_field_inv in Hs as [s' [Hs' Hs]].
    apply required_field_inv in Hh as [h' [Hh' Hh]].
    apply required_field_inv in Hwhy as [w' [Hw' Hwhy]].
    rewrite score_check in Hs, Hh.
    destruct (score_ok s'); [|discriminate]. destruct (score_ok h'); [|discriminate].
    injection Hs as <-. injection Hh as <-. injection Hwhy as <-.
    split; [eauto|]. split; [exact Hs'|]. split; [exact Hh'|]. split; [|exact Hw'].
    destruct (RecipeRecommendation.raw_relevance_score p) as [|[v|]];
      unfold field, nullable in Hrel; simpl value_of.
    + congruence.
    + apply at_loc_ok_inv in Hrel. rewrite score_check in Hrel.
      destruct (score_ok v); [|discriminate]. simpl in Hrel. congruence.
    + apply at_loc_ok_inv in Hrel. congruence.
Qed.
